(** * CodeMergeBot: the merge orchestration core

    A shallow embedding of [server/services/ai-merger.ts] (class
    [AIMergerService]), of the store [server/storage.ts] (class
    [MemStorage]) and of the merge route of [server/routes.ts] with its
    callback, together with the properties that the specification states
    about them.

    Conventions of the embedding.
    - A JavaScript string is a [string]; one character of the model stands
      for one UTF-16 code unit, so that [===], [+], [length] and
      [substring] are the operations on sequences of code units.
    - A value that the TypeScript source types as [any] (everything read
      out of a provider's response) is a [JSValue], the run-time value.
    - An [async] method is a computation in the monad [M]: it threads the
      state of the outside world (the replies the provider will give, the
      requests sent so far, the console) and ends in a value or in a
      thrown exception. *)

From Stdlib Require Import QArith.
From stdpp Require Import base option list strings gmap sets.

Set Warnings "-register-all,-clear-no-such-hyp".

Open Scope string_scope.
Open Scope list_scope.

(** ** JavaScript values *)

(** A number as [JSON.parse] can produce it: the value of a finite double,
    or an infinity (from a literal such as [1e999]). *)
Inductive JSNumber :=
  | Finite (q : Q)
  | Infinity (negative : bool).

Inductive JSValue :=
  | JUndefined
  | JNull
  | JBool (b : bool)
  | JNum (n : JSNumber)
  | JStr (s : string)
  | JArr (elements : list JSValue)
  | JObj (properties : list (string * JSValue)).

(** An exception value: [name] is the constructor ([TypeError],
    [SyntaxError], [Error] ...), [message] is [error.message]. *)
Record Error := mkError { name : string; message : string }.

Definition TypeError (msg : string) : Error := mkError "TypeError" msg.

(** The result of evaluating something that may throw. *)
Inductive Res (A : Type) :=
  | Ok (a : A)
  | Throw (e : Error).
Arguments Ok {A} a.
Arguments Throw {A} e.

(** [ToBoolean]: what [if (v)] and [v || w] test. *)
Definition truthy (v : JSValue) : bool :=
  match v with
  | JUndefined | JNull => false
  | JBool b => b
  | JNum (Finite q) => negb (Qeq_bool q 0)
  | JNum (Infinity _) => true
  | JStr s => negb (String.eqb s "")
  | JArr _ | JObj _ => true
  end.

(** [a || b] *)
Definition js_or (a b : JSValue) : JSValue := if truthy a then a else b.

Fixpoint assoc (k : string) (kvs : list (string * JSValue)) : JSValue :=
  match kvs with
  | [] => JUndefined
  | (k', v) :: kvs' => if String.eqb k k' then v else assoc k kvs'
  end.

(** [v.k] for the property names that the service reads ([hasConflict],
    [type], [description], [recommendation], [mergedContent], [changes]).
    None of them is defined on a prototype, so on a boolean, a number, a
    string or an array the access yields [undefined]; on [undefined] and
    [null] it throws. *)
Definition getProp (v : JSValue) (k : string) : Res JSValue :=
  match v with
  | JUndefined =>
      Throw (TypeError ("Cannot read properties of undefined (reading '" +:+ k +:+ "')"))
  | JNull =>
      Throw (TypeError ("Cannot read properties of null (reading '" +:+ k +:+ "')"))
  | JObj kvs => Ok (assoc k kvs)
  | _ => Ok JUndefined
  end.

(** [s.substring(start, end)] *)
Definition js_substring (s : string) (start end_ : nat) : string :=
  let len := String.length s in
  let a := start `min` len in
  let b := end_ `min` len in
  String.substring (a `min` b) ((a `max` b) - (a `min` b)) s.

(** ** The file model ([services/github.ts]) *)

Module GitHubFile.
Record t := mk { path : string; content : string; type : string; sha : string }.
End GitHubFile.

Definition paths (fs : list GitHubFile.t) : list string := GitHubFile.path <$> fs.

(** ** File Set Classifier *)

Record FileAnalysis := {
  commonFiles : list GitHubFile.t;
  uniqueToA : list GitHubFile.t;
  uniqueToB : list GitHubFile.t
}.

Definition analyzeFileStructures (workspaceA workspaceB : list GitHubFile.t) : FileAnalysis :=
  let aFiles : gset string := list_to_set (GitHubFile.path <$> workspaceA) in
  let bFiles : gset string := list_to_set (GitHubFile.path <$> workspaceB) in
  {| commonFiles := filter (λ f, GitHubFile.path f ∈ bFiles) workspaceA;
     uniqueToA := filter (λ f, GitHubFile.path f ∉ bFiles) workspaceA;
     uniqueToB := filter (λ f, GitHubFile.path f ∉ aFiles) workspaceB |}.

Definition path_set (fs : list GitHubFile.t) : gset string := list_to_set (paths fs).

(** ** Exceptions and the outside world *)

#[export] Instance res_ret : MRet Res := λ A a, Ok a.
#[export] Instance res_bind : MBind Res := λ A B f r,
  match r with
  | Ok a => f a
  | Throw e => Throw e
  end.

(** The two provider SDKs, as far as the service looks into their replies. *)
Module OpenAI.
Record Client := { apiKey : string }.
(** [message.content] is [string | null]. *)
Record Message := { content : option string }.
Record Choice := { message : Message }.
Record ChatCompletion := { choices : list Choice }.
Record Request := {
  model : string;
  messages : list (string * string);   (* role, content *)
  response_format : string
}.
End OpenAI.

Module Anthropic.
Record Client := { apiKey : string }.
(** A content block; [text] is [undefined] on blocks that carry none. *)
Record ContentBlock := { type : string; text : option string }.
Record Message := { content : list ContentBlock }.
Record Request := {
  model : string;
  max_tokens : nat;
  messages : list (string * string)
}.
End Anthropic.

Inductive Request :=
  | ToOpenAI (r : OpenAI.Request)
  | ToAnthropic (r : Anthropic.Request).

(** The world outside the process. The [n]-th request that the process
    sends (counting from 0, over both providers) is answered by
    [openai_reply n], respectively [anthropic_reply n]: the promise resolves
    with a reply or rejects with an error. [sent] is the list of requests
    sent so far, oldest first, and [console] what [console.error] printed. *)
Record World := {
  openai_reply : nat → Res OpenAI.ChatCompletion;
  anthropic_reply : nat → Res Anthropic.Message;
  sent : list Request;
  console : list (string * Error)
}.

Definition M (A : Type) : Type := World → Res A * World.

#[export] Instance M_ret : MRet M := λ A a w, (Ok a, w).
#[export] Instance M_bind : MBind M := λ A B f m w,
  match m w with
  | (Ok a, w') => f a w'
  | (Throw e, w') => (Throw e, w')
  end.

(** A pure evaluation inside an [async] function. *)
Definition lift {A} (r : Res A) : M A := λ w, (r, w).

(** [try { body } catch (error) { handler }] *)
Definition try_catch {A} (body : M A) (handler : Error → M A) : M A := λ w,
  match body w with
  | (Ok a, w') => (Ok a, w')
  | (Throw e, w') => handler e w'
  end.

(** [for (const x of xs) { acc = body x acc }] *)
Fixpoint for_of {A S} (xs : list A) (body : A → S → M S) (acc : S) : M S :=
  match xs with
  | [] => mret acc
  | x :: xs' => acc' ← body x acc; for_of xs' body acc'
  end.

Definition log (label : string) (error : Error) (w : World) : World :=
  {| openai_reply := openai_reply w;
     anthropic_reply := anthropic_reply w;
     sent := sent w;
     console := console w ++ [(label, error)] |}.

(** [console.error(label, error)] *)
Definition console_error (label : string) (error : Error) : M unit :=
  λ w, (Ok tt, log label error w).

Definition send (r : Request) (w : World) : World :=
  {| openai_reply := openai_reply w;
     anthropic_reply := anthropic_reply w;
     sent := sent w ++ [r];
     console := console w |}.

(** [await openai.chat.completions.create(r)] *)
Definition openai_chat_completions_create (r : OpenAI.Request) : M OpenAI.ChatCompletion :=
  λ w, (openai_reply w (length (sent w)), send (ToOpenAI r) w).

(** [await anthropic.messages.create(r)] *)
Definition anthropic_messages_create (r : Anthropic.Request) : M Anthropic.Message :=
  λ w, (anthropic_reply w (length (sent w)), send (ToAnthropic r) w).

(** ** The merger service ([services/ai-merger.ts]) *)

Module MergedFile.
Record t := mk { path : string; content : JSValue; type : string; changes : JSValue }.
End MergedFile.

Module ConflictOption.
Record t := mk { id : string; description : string; preview : JSValue }.
End ConflictOption.

Module Conflict.
Record t := mk {
  filePath : string;
  type : JSValue;
  description : JSValue;
  recommendation : JSValue;
  options : list ConflictOption.t
}.
End Conflict.

Module MergeSummary.
Record t := mk {
  totalFiles : nat;
  mergedFiles : nat;
  conflictsResolved : nat;
  linesAdded : nat;
  recommendations : list string
}.
End MergeSummary.

Module MergeResult.
Record t := mk {
  mergedFiles : list MergedFile.t;
  conflicts : list Conflict.t;
  summary : MergeSummary.t
}.
End MergeResult.

(** The object literal
    [{ type, lineNumber, content, source }] of interface [Change]. *)
Definition Change (type : string) (lineNumber : Q) (content source : string) : JSValue :=
  JObj [("type", JStr type); ("lineNumber", JNum (Finite lineNumber));
        ("content", JStr content); ("source", JStr source)].

Record AIMergerService := {
  openai : option OpenAI.Client;
  anthropic : option Anthropic.Client
}.

(** [new AIMergerService(provider, apiKey)] *)
Definition new_AIMergerService (provider apiKey : string) : AIMergerService :=
  if String.eqb provider "openai"
  then {| openai := Some {| OpenAI.apiKey := apiKey |}; anthropic := None |}
  else {| openai := None; anthropic := Some {| Anthropic.apiKey := apiKey |} |}.

Definition nl : string := String (Ascii.ascii_of_nat 10) EmptyString.
Definition dq : string := String (Ascii.ascii_of_nat 34) EmptyString.
(** A word between double quotes. *)
Definition q (s : string) : string := dq +:+ s +:+ dq.
(** A template literal, line by line. *)
Definition template (lines : list string) : string := String.concat nl lines.

Definition conflictPrompt (fileA fileB : GitHubFile.t) : string := template [
  "";
  "    Analyze these two versions of the same file and identify the type of conflict:";
  "";
  "    File: " +:+ GitHubFile.path fileA;
  "    ";
  "    Version A:";
  "    " +:+ GitHubFile.content fileA;
  "    ";
  "    Version B:";
  "    " +:+ GitHubFile.content fileB;
  "    ";
  "    Respond with JSON in this format:";
  "    {";
  "      " +:+ q "hasConflict" +:+ ": boolean,";
  "      " +:+ q "type" +:+ ": " +:+ q "naming" +:+ " | " +:+ q "content" +:+ " | " +:+ q "dependency" +:+ ",";
  "      " +:+ q "description" +:+ ": " +:+ q "Brief description of the conflict" +:+ ",";
  "      " +:+ q "recommendation" +:+ ": " +:+ q "AI recommendation for resolution";
  "    }";
  "    "
].

Definition mergePrompt (fileA fileB : GitHubFile.t) : string := template [
  "";
  "    Intelligently merge these two versions of the same file. The goal is to combine functionality from both versions while maintaining code quality and consistency.";
  "";
  "    File: " +:+ GitHubFile.path fileA;
  "    ";
  "    Version A (Workspace A):";
  "    " +:+ GitHubFile.content fileA;
  "    ";
  "    Version B (Workspace B):";
  "    " +:+ GitHubFile.content fileB;
  "    ";
  "    Please provide a merged version that:";
  "    1. Combines functionality from both versions";
  "    2. Resolves any conflicts intelligently";
  "    3. Maintains proper code structure and syntax";
  "    4. Preserves important functionality from both versions";
  "    ";
  "    Respond with JSON in this format:";
  "    {";
  "      " +:+ q "mergedContent" +:+ ": " +:+ q "the merged file content" +:+ ",";
  "      " +:+ q "changes" +:+ ": [";
  "        {";
  "          " +:+ q "type" +:+ ": " +:+ q "added" +:+ " | " +:+ q "modified" +:+ " | " +:+ q "removed" +:+ ",";
  "          " +:+ q "lineNumber" +:+ ": number,";
  "          " +:+ q "content" +:+ ": " +:+ q "the change description" +:+ ",";
  "          " +:+ q "source" +:+ ": " +:+ q "workspace_a" +:+ " | " +:+ q "workspace_b" +:+ " | " +:+ q "ai_generated";
  "        }";
  "      ]";
  "    }";
  "    "
].

(** [s || "{}"] for [s : string | null | undefined] *)
Definition or_empty_object (s : option string) : string :=
  match s with
  | Some s => if String.eqb s "" then "{}" else s
  | None => "{}"
  end.

(** [completion.choices[0].message.content] *)
Definition first_choice_content (completion : OpenAI.ChatCompletion) : Res (option string) :=
  match OpenAI.choices completion with
  | choice :: _ => Ok (OpenAI.content (OpenAI.message choice))
  | [] => Throw (TypeError "Cannot read properties of undefined (reading 'message')")
  end.

(** [message.content.find(block => block.type === 'text')?.text] *)
Definition first_text (message : Anthropic.Message) : option string :=
  match List.find (λ block, String.eqb (Anthropic.type block) "text") (Anthropic.content message) with
  | Some textContent => Anthropic.text textContent
  | None => None
  end.

Section Merger.

(** [JSON.parse]: a value, or a thrown [SyntaxError]. *)
Variable JSON_parse : string → Res JSValue.

(** The request bodies of the two SDK calls. *)
Definition openai_request (prompt : string) : OpenAI.Request :=
  {| OpenAI.model := "gpt-4o";
     OpenAI.messages := [("user", prompt)];
     OpenAI.response_format := "json_object" |}.

Definition anthropic_request (prompt : string) (max_tokens : nat) : Anthropic.Request :=
  {| Anthropic.model := "claude-sonnet-4-20250514";
     Anthropic.max_tokens := max_tokens;
     Anthropic.messages := [("user", prompt)] |}.

(** The part that [analyzeFileConflict] and [mergeFileContents] share: send
    the prompt to the configured provider and parse the text of the reply.
    [max_tokens] is only sent to Anthropic. With neither client set,
    [response] stays [undefined]. *)
Definition ask (this : AIMergerService) (prompt : string) (max_tokens : nat) : M JSValue :=
  match openai this with
  | Some _ =>
      completion ← openai_chat_completions_create (openai_request prompt);
      content ← lift (first_choice_content completion);
      lift (JSON_parse (or_empty_object content))
  | None =>
      match anthropic this with
      | Some _ =>
          message ← anthropic_messages_create (anthropic_request prompt max_tokens);
          lift (JSON_parse (or_empty_object (first_text message)))
      | None => mret JUndefined
      end
  end.

(** The request that [ask] sends. *)
Definition request_of (this : AIMergerService) (prompt : string) (max_tokens : nat)
  : option Request :=
  match openai this, anthropic this with
  | Some _, _ => Some (ToOpenAI (openai_request prompt))
  | None, Some _ => Some (ToAnthropic (anthropic_request prompt max_tokens))
  | None, None => None
  end.

(** The ways in which the reasoning step fails in world [w], with the
    exception that it throws: the promise of the provider call rejects, the
    reply has no choice to read, or the text of the reply is no JSON. *)
Inductive reasoning_fails (this : AIMergerService) (w : World) : Error → Prop :=
  | openai_rejects client e :
      openai this = Some client →
      openai_reply w (length (sent w)) = Throw e →
      reasoning_fails this w e
  | openai_no_choice client completion e :
      openai this = Some client →
      openai_reply w (length (sent w)) = Ok completion →
      first_choice_content completion = Throw e →
      reasoning_fails this w e
  | openai_unparsable client completion content e :
      openai this = Some client →
      openai_reply w (length (sent w)) = Ok completion →
      first_choice_content completion = Ok content →
      JSON_parse (or_empty_object content) = Throw e →
      reasoning_fails this w e
  | anthropic_rejects client e :
      openai this = None → anthropic this = Some client →
      anthropic_reply w (length (sent w)) = Throw e →
      reasoning_fails this w e
  | anthropic_unparsable client message e :
      openai this = None → anthropic this = Some client →
      anthropic_reply w (length (sent w)) = Ok message →
      JSON_parse (or_empty_object (first_text message)) = Throw e →
      reasoning_fails this w e.

(** The reasoning step succeeds in world [w]: the call resolves and the
    text of the reply parses to [response]. *)
Inductive reasoning_yields (this : AIMergerService) (w : World) : JSValue → Prop :=
  | openai_yields client completion content response :
      openai this = Some client →
      openai_reply w (length (sent w)) = Ok completion →
      first_choice_content completion = Ok content →
      JSON_parse (or_empty_object content) = Ok response →
      reasoning_yields this w response
  | anthropic_yields client message response :
      openai this = None → anthropic this = Some client →
      anthropic_reply w (length (sent w)) = Ok message →
      JSON_parse (or_empty_object (first_text message)) = Ok response →
      reasoning_yields this w response.

Definition analyzeFileConflict (this : AIMergerService) (fileA fileB : GitHubFile.t)
  : M (option Conflict.t) :=
  let prompt := conflictPrompt fileA fileB in
  try_catch
    (response ← ask this prompt 1024;
     hasConflict ← lift (getProp response "hasConflict");
     if truthy hasConflict then
       type ← lift (getProp response "type");
       description ← lift (getProp response "description");
       recommendation ← lift (getProp response "recommendation");
       mret (Some {|
         Conflict.filePath := GitHubFile.path fileA;
         Conflict.type := type;
         Conflict.description := description;
         Conflict.recommendation := recommendation;
         Conflict.options := [
           {| ConflictOption.id := "use_a";
              ConflictOption.description := "Use Version A";
              ConflictOption.preview :=
                JStr (js_substring (GitHubFile.content fileA) 0 200 +:+ "...") |};
           {| ConflictOption.id := "use_b";
              ConflictOption.description := "Use Version B";
              ConflictOption.preview :=
                JStr (js_substring (GitHubFile.content fileB) 0 200 +:+ "...") |};
           {| ConflictOption.id := "ai_merge";
              ConflictOption.description := "AI Recommended Merge";
              ConflictOption.preview := recommendation |}
         ] |})
     else mret None)
    (λ error,
       _ ← console_error "Error analyzing file conflict:" error;
       mret None).

(** [workspaceB.find(f => f.path === fileA.path)] *)
Definition find_by_path (workspaceB : list GitHubFile.t) (fileA : GitHubFile.t)
  : option GitHubFile.t :=
  List.find (λ f, String.eqb (GitHubFile.path f) (GitHubFile.path fileA)) workspaceB.

(** The body of the loop of [detectConflicts]. *)
Definition detectConflicts_body (this : AIMergerService) (workspaceB : list GitHubFile.t)
    (fileA : GitHubFile.t) (conflicts : list Conflict.t) : M (list Conflict.t) :=
  match find_by_path workspaceB fileA with
  | Some fileB =>
      if negb (String.eqb (GitHubFile.content fileA) (GitHubFile.content fileB)) then
        conflict ← analyzeFileConflict this fileA fileB;
        match conflict with
        | Some c => mret (conflicts ++ [c])
        | None => mret conflicts
        end
      else mret conflicts
  | None => mret conflicts
  end.

Definition detectConflicts (this : AIMergerService) (workspaceA workspaceB : list GitHubFile.t)
  : M (list Conflict.t) :=
  for_of (commonFiles (analyzeFileStructures workspaceA workspaceB))
         (detectConflicts_body this workspaceB) [].

Definition mergeFileContents (this : AIMergerService) (fileA fileB : GitHubFile.t)
  : M MergedFile.t :=
  if String.eqb (GitHubFile.content fileA) (GitHubFile.content fileB) then
    mret {| MergedFile.path := GitHubFile.path fileA;
            MergedFile.content := JStr (GitHubFile.content fileA);
            MergedFile.type := GitHubFile.type fileA;
            MergedFile.changes := JArr [] |}
  else
    let prompt := mergePrompt fileA fileB in
    try_catch
      (response ← ask this prompt 4000;
       mergedContent ← lift (getProp response "mergedContent");
       changes ← lift (getProp response "changes");
       mret {| MergedFile.path := GitHubFile.path fileA;
               MergedFile.content := js_or mergedContent (JStr (GitHubFile.content fileA));
               MergedFile.type := GitHubFile.type fileA;
               MergedFile.changes := js_or changes (JArr []) |})
      (λ error,
         _ ← console_error "Error merging file contents:" error;
         (* Fallback to workspace A content *)
         mret {| MergedFile.path := GitHubFile.path fileA;
                 MergedFile.content := JStr (GitHubFile.content fileA);
                 MergedFile.type := GitHubFile.type fileA;
                 MergedFile.changes := JArr [] |}).

(** What [performAIMerge] pushes for a file of only one workspace. *)
Definition uniqueFile (source : string) (file : GitHubFile.t) : MergedFile.t :=
  {| MergedFile.path := GitHubFile.path file;
     MergedFile.content := JStr (GitHubFile.content file);
     MergedFile.type := GitHubFile.type file;
     MergedFile.changes :=
       JArr [Change "added" 1 (GitHubFile.content file) source] |}.

(** The body of the last loop of [performAIMerge]. *)
Definition performAIMerge_body (this : AIMergerService) (workspaceB : list GitHubFile.t)
    (fileA : GitHubFile.t) (mergedFiles : list MergedFile.t) : M (list MergedFile.t) :=
  match find_by_path workspaceB fileA with
  | Some fileB =>
      mergedFile ← mergeFileContents this fileA fileB;
      mret (mergedFiles ++ [mergedFile])
  | None => mret mergedFiles
  end.

Definition performAIMerge (this : AIMergerService) (workspaceA workspaceB : list GitHubFile.t)
    (conflicts : list Conflict.t) : M (list MergedFile.t) :=
  let analysis := analyzeFileStructures workspaceA workspaceB in
  (* Add unique files from both workspaces *)
  let mergedFiles := [] ++ (uniqueFile "workspace_a" <$> uniqueToA analysis) in
  let mergedFiles := mergedFiles ++ (uniqueFile "workspace_b" <$> uniqueToB analysis) in
  (* Merge common files *)
  for_of (commonFiles analysis) (performAIMerge_body this workspaceB) mergedFiles.

(** ** Summary Builder *)

(** [c.type === "added"] *)
Definition is_added (c : JSValue) : Res bool :=
  type ← getProp c "type";
  mret (match type with
        | JStr s => String.eqb s "added"
        | _ => false
        end).

(** [xs.filter(p)], for a predicate that may throw. *)
Fixpoint js_filter (p : JSValue → Res bool) (xs : list JSValue) : Res (list JSValue) :=
  match xs with
  | [] => mret []
  | x :: xs' =>
      keep ← p x;
      rest ← js_filter p xs';
      mret (if keep : bool then x :: rest else rest)
  end.

(** [changes.filter(p)]: only an array has the method. *)
Definition method_filter (changes : JSValue) (p : JSValue → Res bool) : Res (list JSValue) :=
  match changes with
  | JArr xs => js_filter p xs
  | JUndefined => Throw (TypeError "Cannot read properties of undefined (reading 'filter')")
  | JNull => Throw (TypeError "Cannot read properties of null (reading 'filter')")
  | _ => Throw (TypeError "file.changes.filter is not a function")
  end.

(** [xs.reduce(f, init)] *)
Fixpoint reduce {A S} (xs : list A) (f : S → A → Res S) (init : S) : Res S :=
  match xs with
  | [] => mret init
  | x :: xs' => acc ← f init x; reduce xs' f acc
  end.

Definition recommendations : list string := [
  "Review merged files for proper functionality";
  "Test the integrated codebase thoroughly";
  "Update documentation to reflect changes";
  "Consider refactoring common patterns"
].

Definition generateSummary (workspaceA workspaceB : list GitHubFile.t)
    (mergedFiles : list MergedFile.t) (conflicts : list Conflict.t) : Res MergeSummary.t :=
  let totalFiles :=
    size (list_to_set ((GitHubFile.path <$> workspaceA) ++ (GitHubFile.path <$> workspaceB))
            : gset string) in
  linesAdded ← reduce mergedFiles
    (λ total file,
       added ← method_filter (MergedFile.changes file) is_added;
       mret (total + length added)) 0;
  mret {| MergeSummary.totalFiles := totalFiles;
          MergeSummary.mergedFiles := length mergedFiles;
          MergeSummary.conflictsResolved := length conflicts;
          MergeSummary.linesAdded := linesAdded;
          MergeSummary.recommendations := recommendations |}.

(** ** Merge Orchestrator *)

Definition mergeWorkspaces (this : AIMergerService) (workspaceAFiles workspaceBFiles : list GitHubFile.t)
  : M MergeResult.t :=
  try_catch
    ((* Analyze file structures *)
     let fileAnalysis := analyzeFileStructures workspaceAFiles workspaceBFiles in
     (* Detect conflicts *)
     conflicts ← detectConflicts this workspaceAFiles workspaceBFiles;
     (* Merge files using AI *)
     mergedFiles ← performAIMerge this workspaceAFiles workspaceBFiles conflicts;
     (* Generate summary *)
     summary ← lift (generateSummary workspaceAFiles workspaceBFiles mergedFiles conflicts);
     mret {| MergeResult.mergedFiles := mergedFiles;
             MergeResult.conflicts := conflicts;
             MergeResult.summary := summary |})
    (λ error, lift (Throw (mkError "Error" ("AI merge failed: " +:+ message error)))).

End Merger.

(** ** The tables ([shared/schema.ts]) *)

(** A row of table [merge_jobs] as the store holds it at run time. A
    column is [None] when it is [null] or when the object has no such key:
    [createMergeJob] copies [status] from the validated body, where the
    column, having a default, is optional. *)
Module MergeJob.
Record t := mk {
  id : string;
  workspaceAUrl : string;
  workspaceBUrl : string;
  workspaceABranch : option string;
  workspaceBBranch : option string;
  status : option string;               (* pending, processing, completed, failed *)
  aiProvider : string;                  (* openai, anthropic *)
  mergedFiles : option (list MergedFile.t);
  conflicts : option (list Conflict.t);
  summary : option MergeSummary.t;
  errorMessage : option string;
  createdAt : option nat;
  completedAt : option nat
}.
End MergeJob.

(** What [insertMergeJobSchema] lets through: the columns but [id],
    [createdAt] and [completedAt]; a column with a default or without
    [notNull] may be missing ([None]). *)
Module InsertMergeJob.
Record t := mk {
  workspaceAUrl : string;
  workspaceBUrl : string;
  workspaceABranch : option string;
  workspaceBBranch : option string;
  status : option string;
  aiProvider : string;
  mergedFiles : option JSValue;
  conflicts : option JSValue;
  summary : option JSValue;
  errorMessage : option string
}.
End InsertMergeJob.

(** [Partial<MergeJob>]: [None] for a key that the object has not. *)
Module PartialMergeJob.
Record t := mk {
  id : option string;
  workspaceAUrl : option string;
  workspaceBUrl : option string;
  workspaceABranch : option (option string);
  workspaceBBranch : option (option string);
  status : option string;
  aiProvider : option string;
  mergedFiles : option (option (list MergedFile.t));
  conflicts : option (option (list Conflict.t));
  summary : option (option MergeSummary.t);
  errorMessage : option (option string);
  createdAt : option (option nat);
  completedAt : option (option nat)
}.
End PartialMergeJob.

(** A row of table [workspace_files]. *)
Module WorkspaceFile.
Record t := mk {
  id : string;
  mergeJobId : option string;
  workspace : string;                   (* 'a' or 'b' *)
  filePath : string;
  content : option string;
  fileType : option string;
  isConflict : bool
}.
End WorkspaceFile.

Module InsertWorkspaceFile.
Record t := mk {
  mergeJobId : option string;
  workspace : string;
  filePath : string;
  content : option string;
  fileType : option string;
  isConflict : option bool
}.
End InsertWorkspaceFile.

(** ** The in-memory store ([server/storage.ts]) *)

(** [s || null] for a string that may be missing. *)
Definition or_null (s : option string) : option string :=
  match s with
  | Some s => if String.eqb s "" then None else Some s
  | None => None
  end.

(** A [Map] whose order of insertion is observed: the entries, oldest
    first, no key twice. [map_set] is [Map.prototype.set] and [map_delete]
    is [Map.prototype.delete]. *)
Fixpoint map_set {V} (k : string) (v : V) (m : list (string * V)) : list (string * V) :=
  match m with
  | [] => [(k, v)]
  | (k', v') :: m' =>
      if String.eqb k' k then (k, v) :: m' else (k', v') :: map_set k v m'
  end.

Fixpoint map_delete {V} (k : string) (m : list (string * V)) : list (string * V) :=
  match m with
  | [] => []
  | (k', v') :: m' => if String.eqb k' k then m' else (k', v') :: map_delete k m'
  end.

(** Class [MemStorage]. Each method takes the object and gives it back
    with its result; what [randomUUID()] and [new Date()] give are
    arguments ([id], [now]). The jobs are only ever looked up by key, so
    their [Map] is a finite map; the files are listed, so theirs keeps its
    order. *)
Module MemStorage.

Record t := {
  mergeJobs : gmap string MergeJob.t;
  workspaceFiles : list (string * WorkspaceFile.t)
}.

(** [new MemStorage()] *)
Definition new : t := {| mergeJobs := ∅; workspaceFiles := [] |}.

(** The keys written after the spread of [insertJob] overwrite its own:
    [mergedFiles], [conflicts] and [summary] are [null] whatever the body
    said, and [status] and [errorMessage] are the body's. *)
Definition createMergeJob (id : string) (now : nat) (insertJob : InsertMergeJob.t) (this : t)
  : MergeJob.t * t :=
  let job :=
    {| MergeJob.id := id;
       MergeJob.workspaceAUrl := InsertMergeJob.workspaceAUrl insertJob;
       MergeJob.workspaceBUrl := InsertMergeJob.workspaceBUrl insertJob;
       MergeJob.workspaceABranch := InsertMergeJob.workspaceABranch insertJob;
       MergeJob.workspaceBBranch := InsertMergeJob.workspaceBBranch insertJob;
       MergeJob.status := InsertMergeJob.status insertJob;
       MergeJob.aiProvider := InsertMergeJob.aiProvider insertJob;
       MergeJob.mergedFiles := None;
       MergeJob.conflicts := None;
       MergeJob.summary := None;
       MergeJob.errorMessage := InsertMergeJob.errorMessage insertJob;
       MergeJob.createdAt := Some now;
       MergeJob.completedAt := None |} in
  (job, {| mergeJobs := <[id := job]> (mergeJobs this);
           workspaceFiles := workspaceFiles this |}).

Definition getMergeJob (id : string) (this : t) : option MergeJob.t :=
  mergeJobs this !! id.

(** [{ ...existing, ...updates }] *)
Definition spread (existing : MergeJob.t) (updates : PartialMergeJob.t) : MergeJob.t :=
  {| MergeJob.id := default (MergeJob.id existing) (PartialMergeJob.id updates);
     MergeJob.workspaceAUrl :=
       default (MergeJob.workspaceAUrl existing) (PartialMergeJob.workspaceAUrl updates);
     MergeJob.workspaceBUrl :=
       default (MergeJob.workspaceBUrl existing) (PartialMergeJob.workspaceBUrl updates);
     MergeJob.workspaceABranch :=
       default (MergeJob.workspaceABranch existing)
         (PartialMergeJob.workspaceABranch updates);
     MergeJob.workspaceBBranch :=
       default (MergeJob.workspaceBBranch existing)
         (PartialMergeJob.workspaceBBranch updates);
     MergeJob.status :=
       match PartialMergeJob.status updates with
       | Some s => Some s
       | None => MergeJob.status existing
       end;
     MergeJob.aiProvider :=
       default (MergeJob.aiProvider existing) (PartialMergeJob.aiProvider updates);
     MergeJob.mergedFiles :=
       default (MergeJob.mergedFiles existing) (PartialMergeJob.mergedFiles updates);
     MergeJob.conflicts :=
       default (MergeJob.conflicts existing) (PartialMergeJob.conflicts updates);
     MergeJob.summary :=
       default (MergeJob.summary existing) (PartialMergeJob.summary updates);
     MergeJob.errorMessage :=
       default (MergeJob.errorMessage existing) (PartialMergeJob.errorMessage updates);
     MergeJob.createdAt :=
       default (MergeJob.createdAt existing) (PartialMergeJob.createdAt updates);
     MergeJob.completedAt :=
       default (MergeJob.completedAt existing) (PartialMergeJob.completedAt updates) |}.

(** [updated.completedAt = new Date()] *)
Definition stamp (now : nat) (job : MergeJob.t) : MergeJob.t :=
  {| MergeJob.id := MergeJob.id job;
     MergeJob.workspaceAUrl := MergeJob.workspaceAUrl job;
     MergeJob.workspaceBUrl := MergeJob.workspaceBUrl job;
     MergeJob.workspaceABranch := MergeJob.workspaceABranch job;
     MergeJob.workspaceBBranch := MergeJob.workspaceBBranch job;
     MergeJob.status := MergeJob.status job;
     MergeJob.aiProvider := MergeJob.aiProvider job;
     MergeJob.mergedFiles := MergeJob.mergedFiles job;
     MergeJob.conflicts := MergeJob.conflicts job;
     MergeJob.summary := MergeJob.summary job;
     MergeJob.errorMessage := MergeJob.errorMessage job;
     MergeJob.createdAt := MergeJob.createdAt job;
     MergeJob.completedAt := Some now |}.

(** The updated job ([undefined] when there is none under [id]) and the
    store. The completion time is stamped when the update itself carries
    the status [completed] or [failed]. *)
Definition updateMergeJob (id : string) (updates : PartialMergeJob.t) (now : nat) (this : t)
  : option MergeJob.t * t :=
  match mergeJobs this !! id with
  | None => (None, this)
  | Some existing =>
      let updated := spread existing updates in
      let updated :=
        if bool_decide (PartialMergeJob.status updates = Some "completed")
           || bool_decide (PartialMergeJob.status updates = Some "failed")
        then stamp now updated else updated in
      (Some updated, {| mergeJobs := <[id := updated]> (mergeJobs this);
                        workspaceFiles := workspaceFiles this |})
  end.

Definition createWorkspaceFile (id : string) (insertFile : InsertWorkspaceFile.t) (this : t)
  : WorkspaceFile.t * t :=
  let file :=
    {| WorkspaceFile.id := id;
       WorkspaceFile.mergeJobId := InsertWorkspaceFile.mergeJobId insertFile;
       WorkspaceFile.workspace := InsertWorkspaceFile.workspace insertFile;
       WorkspaceFile.filePath := InsertWorkspaceFile.filePath insertFile;
       WorkspaceFile.content := or_null (InsertWorkspaceFile.content insertFile);
       WorkspaceFile.fileType := or_null (InsertWorkspaceFile.fileType insertFile);
       WorkspaceFile.isConflict :=
         default false (InsertWorkspaceFile.isConflict insertFile) |} in
  (file, {| mergeJobs := mergeJobs this;
            workspaceFiles := map_set id file (workspaceFiles this) |}).

(** [file.mergeJobId === jobId] *)
Definition of_job (jobId : string) (file : WorkspaceFile.t) : bool :=
  match WorkspaceFile.mergeJobId file with
  | Some j => String.eqb j jobId
  | None => false
  end.

Definition getWorkspaceFilesByJobId (jobId : string) (this : t) : list WorkspaceFile.t :=
  List.filter (of_job jobId) (snd <$> workspaceFiles this).

Definition deleteWorkspaceFilesByJobId (jobId : string) (this : t) : t :=
  let filesToDelete :=
    fst <$> List.filter (λ entry, of_job jobId entry.2) (workspaceFiles this) in
  {| mergeJobs := mergeJobs this;
     workspaceFiles := foldl (λ files id, map_delete id files) (workspaceFiles this)
                             filesToDelete |}.

End MemStorage.

(** ** Job Lifecycle Controller ([server/routes.ts]) *)

(** [{ status: "processing" }] *)
Definition processing : PartialMergeJob.t :=
  {| PartialMergeJob.id := None;
     PartialMergeJob.workspaceAUrl := None;
     PartialMergeJob.workspaceBUrl := None;
     PartialMergeJob.workspaceABranch := None;
     PartialMergeJob.workspaceBBranch := None;
     PartialMergeJob.status := Some "processing";
     PartialMergeJob.aiProvider := None;
     PartialMergeJob.mergedFiles := None;
     PartialMergeJob.conflicts := None;
     PartialMergeJob.summary := None;
     PartialMergeJob.errorMessage := None;
     PartialMergeJob.createdAt := None;
     PartialMergeJob.completedAt := None |}.

(** [{ status: "completed", mergedFiles, conflicts, summary }] *)
Definition completed (mergeResult : MergeResult.t) : PartialMergeJob.t :=
  {| PartialMergeJob.id := None;
     PartialMergeJob.workspaceAUrl := None;
     PartialMergeJob.workspaceBUrl := None;
     PartialMergeJob.workspaceABranch := None;
     PartialMergeJob.workspaceBBranch := None;
     PartialMergeJob.status := Some "completed";
     PartialMergeJob.aiProvider := None;
     PartialMergeJob.mergedFiles := Some (Some (MergeResult.mergedFiles mergeResult));
     PartialMergeJob.conflicts := Some (Some (MergeResult.conflicts mergeResult));
     PartialMergeJob.summary := Some (Some (MergeResult.summary mergeResult));
     PartialMergeJob.errorMessage := None;
     PartialMergeJob.createdAt := None;
     PartialMergeJob.completedAt := None |}.

(** [{ status: "failed", errorMessage: error.message }] *)
Definition failed (error : Error) : PartialMergeJob.t :=
  {| PartialMergeJob.id := None;
     PartialMergeJob.workspaceAUrl := None;
     PartialMergeJob.workspaceBUrl := None;
     PartialMergeJob.workspaceABranch := None;
     PartialMergeJob.workspaceBBranch := None;
     PartialMergeJob.status := Some "failed";
     PartialMergeJob.aiProvider := None;
     PartialMergeJob.mergedFiles := None;
     PartialMergeJob.conflicts := None;
     PartialMergeJob.summary := None;
     PartialMergeJob.errorMessage := Some (Some (message error));
     PartialMergeJob.createdAt := None;
     PartialMergeJob.completedAt := None |}.

(** [req.body] of [POST /api/merge-jobs/:id/merge] *)
Record MergeBody := {
  githubTokenA : option string;
  githubTokenB : option string;
  aiApiKey : string
}.

(** What the route answers: [res.status(code).json({ message })]. *)
Record Response := { code : nat; json_message : string }.

(** A callback handed to [setImmediate]: by the route that creates a job,
    to load its files for the preview, or by the merge route, with the job
    as the route read it and the request body. *)
Inductive Immediate :=
  | LoadFiles (job : MergeJob.t)
  | ProcessMerge (job : MergeJob.t) (body : MergeBody).

(** The state of the server: the store and the callbacks that wait for
    the event loop. *)
Record Server := {
  storage : MemStorage.t;
  immediates : list Immediate
}.

(** The handler of [POST /api/merge-jobs/:id/merge], up to its response.
    With the in-memory store every [await] of the handler resolves before
    the event loop takes the next request, so the handler is one step. *)
Definition post_merge (id : string) (body : MergeBody) (now : nat) (s : Server)
  : Response * Server :=
  match MemStorage.getMergeJob id (storage s) with
  | None => ({| code := 404; json_message := "Merge job not found" |}, s)
  | Some job =>
      if negb (bool_decide (MergeJob.status job = Some "pending")) then
        ({| code := 400; json_message := "Merge job is not in pending status" |}, s)
      else
        (* Update job status to processing *)
        let storage' :=
          (MemStorage.updateMergeJob (MergeJob.id job) processing now (storage s)).2 in
        (* Process merge in background *)
        ({| code := 200; json_message := "Merge process started" |},
         {| storage := storage';
            immediates := immediates s ++ [ProcessMerge job body] |})
  end.

(** [for (const file of files) await storage.createWorkspaceFile({ ... })]:
    the [k]-th file that a callback stores gets the id [uuids k]. *)
Fixpoint store_files (uuids : nat → string) (k : nat) (jobId workspace : string)
    (files : list GitHubFile.t) (this : MemStorage.t) : MemStorage.t :=
  match files with
  | [] => this
  | file :: files' =>
      let insertFile :=
        {| InsertWorkspaceFile.mergeJobId := Some jobId;
           InsertWorkspaceFile.workspace := workspace;
           InsertWorkspaceFile.filePath := GitHubFile.path file;
           InsertWorkspaceFile.content := Some (GitHubFile.content file);
           InsertWorkspaceFile.fileType := Some (GitHubFile.type file);
           InsertWorkspaceFile.isConflict := Some false |} in
      store_files uuids (S k) jobId workspace files'
        (MemStorage.createWorkspaceFile (uuids k) insertFile this).2
  end.


Section Lifecycle.

Variable JSON_parse : string → Res JSValue.

(** The callback of the merge route. [fetched] is what parsing the two
    urls and fetching the two repositories gives, [w] the world that the
    merger meets. Its only write to the job is the last one. *)
Definition process_merge (job : MergeJob.t) (body : MergeBody)
    (fetched : Res (list GitHubFile.t * list GitHubFile.t)) (w : World) (now : nat)
    (uuids : nat → string) (this : MemStorage.t) : MemStorage.t :=
  match fetched with
  | Throw error => (MemStorage.updateMergeJob (MergeJob.id job) (failed error) now this).2
  | Ok (workspaceAFiles, workspaceBFiles) =>
      (* Store workspace files *)
      let this := MemStorage.deleteWorkspaceFilesByJobId (MergeJob.id job) this in
      let this := store_files uuids 0 (MergeJob.id job) "a" workspaceAFiles this in
      let this :=
        store_files uuids (length workspaceAFiles) (MergeJob.id job) "b" workspaceBFiles
          this in
      (* Perform AI merge *)
      let aiMerger := new_AIMergerService (MergeJob.aiProvider job) (aiApiKey body) in
      match mergeWorkspaces JSON_parse aiMerger workspaceAFiles workspaceBFiles w with
      | (Ok mergeResult, _) =>
          (* Update job with results *)
          (MemStorage.updateMergeJob (MergeJob.id job) (completed mergeResult) now this).2
      | (Throw error, _) =>
          (MemStorage.updateMergeJob (MergeJob.id job) (failed error) now this).2
      end
  end.





End Lifecycle.

(** ** The words of the specification *)

(** The number of distinct paths over both sides. *)
Definition distinct_paths (sideA sideB : list GitHubFile.t) : nat :=
  length (remove_dups (paths sideA ++ paths sideB)).

(** A [Change] entry whose kind is [added]. *)
Definition kind_added (c : JSValue) : bool :=
  match c with
  | JObj kvs =>
      match assoc "type" kvs with
      | JStr s => String.eqb s "added"
      | _ => false
      end
  | _ => false
  end.

(** The change list of a merged file. *)
Definition changes_of (file : MergedFile.t) : list JSValue :=
  match MergedFile.changes file with
  | JArr cs => cs
  | _ => []
  end.

(** The count of [Change] entries with kind [added] across all files. *)
Definition added_changes (mergedFiles : list MergedFile.t) : nat :=
  length (filter (λ c, kind_added c = true) (mergedFiles ≫= changes_of)).

(** A merged file as interface [MergedFile] declares it: [changes] is an
    array of objects. *)
Definition declared_changes (file : MergedFile.t) : Prop :=
  ∃ cs, MergedFile.changes file = JArr cs ∧ Forall (λ c, ∃ kvs, c = JObj kvs) cs.

(** A preview as the specification words it: at most 200 characters of the
    content, or the recommendation. *)
Definition preview_as_claimed (content : string) (recommendation preview : JSValue) : Prop :=
  (∃ s i, preview = JStr s ∧ (String.length s ≤ 200)%nat
          ∧ String.substring i (String.length s) content = s)
  ∨ preview = recommendation.

(** The options of a conflict as the specification words them. *)
Definition options_as_claimed (fileA fileB : GitHubFile.t) (c : Conflict.t) : Prop :=
  ∃ useA useB aiMerge,
    Conflict.options c = [useA; useB; aiMerge]
    ∧ ConflictOption.id useA = "use_a"
    ∧ ConflictOption.id useB = "use_b"
    ∧ ConflictOption.id aiMerge = "ai_merge"
    ∧ preview_as_claimed (GitHubFile.content fileA) (Conflict.recommendation c)
        (ConflictOption.preview useA)
    ∧ preview_as_claimed (GitHubFile.content fileB) (Conflict.recommendation c)
        (ConflictOption.preview useB)
    ∧ ConflictOption.preview aiMerge = Conflict.recommendation c.


(** A change list that [generateSummary] can count: an array with no
    [null] and no [undefined] in it. *)
Definition countable_changes (file : MergedFile.t) : Prop :=
  ∃ cs, MergedFile.changes file = JArr cs ∧ Forall (λ c, c ≠ JNull ∧ c ≠ JUndefined) cs.

(** The summary as the specification words it. *)
Definition summary_as_claimed (sideA sideB : list GitHubFile.t)
    (mergedFiles : list MergedFile.t) (conflicts : list Conflict.t) : MergeSummary.t :=
  {| MergeSummary.totalFiles := distinct_paths sideA sideB;
     MergeSummary.mergedFiles := length mergedFiles;
     MergeSummary.conflictsResolved := length conflicts;
     MergeSummary.linesAdded := added_changes mergedFiles;
     MergeSummary.recommendations :=
       ["Review merged files for proper functionality";
        "Test the integrated codebase thoroughly";
        "Update documentation to reflect changes";
        "Consider refactoring common patterns"] |}.

(** A response in the format that the prompt of the Conflict Analyzer
    asks for: an object with a boolean [hasConflict], a [type] among the
    three named, and two strings. *)
Definition requested_verdict (r : JSValue) : Prop :=
  ∃ kvs b type description recommendation,
    r = JObj kvs
    ∧ assoc "hasConflict" kvs = JBool b
    ∧ assoc "type" kvs = JStr type ∧ type ∈ ["naming"; "content"; "dependency"]
    ∧ assoc "description" kvs = JStr description
    ∧ assoc "recommendation" kvs = JStr recommendation.

(** A malformed response: one that parses and has not that format. *)
Definition malformed (r : JSValue) : Prop := ¬ requested_verdict r.



(** ** Fixtures: a parser on a few texts, replies, files *)

Definition verdict_text : string :=
  "{" +:+ q "hasConflict" +:+ ":true," +:+ q "type" +:+ ":" +:+ q "content" +:+ ","
      +:+ q "description" +:+ ":" +:+ q "both sides change the greeting" +:+ ","
      +:+ q "recommendation" +:+ ":" +:+ q "keep both greetings" +:+ "}".

Definition verdict : JSValue :=
  JObj [("hasConflict", JBool true); ("type", JStr "content");
        ("description", JStr "both sides change the greeting");
        ("recommendation", JStr "keep both greetings")].

Definition fusion_text : string :=
  "{" +:+ q "mergedContent" +:+ ":" +:+ q "hello, world" +:+ "," +:+ q "changes" +:+ ":[{"
      +:+ q "type" +:+ ":" +:+ q "added" +:+ "," +:+ q "lineNumber" +:+ ":1,"
      +:+ q "content" +:+ ":" +:+ q "world" +:+ "," +:+ q "source" +:+ ":" +:+ q "workspace_b"
      +:+ "}]}".

Definition fusion : JSValue :=
  JObj [("mergedContent", JStr "hello, world");
        ("changes", JArr [Change "added" 1 "world" "workspace_b"])].

(** A reply that has not the format asked for: [hasConflict] is a string
    and the other fields are missing. *)
Definition sloppy_text : string := "{" +:+ q "hasConflict" +:+ ":" +:+ q "yes" +:+ "}".

Definition sloppy : JSValue := JObj [("hasConflict", JStr "yes")].

(** A reply to the fusion whose [changes] is a sentence. *)
Definition careless_text : string :=
  "{" +:+ q "mergedContent" +:+ ":" +:+ q "hello, world" +:+ "," +:+ q "changes" +:+ ":"
      +:+ q "merged both greetings" +:+ "}".

Definition careless : JSValue :=
  JObj [("mergedContent", JStr "hello, world"); ("changes", JStr "merged both greetings")].

Definition SyntaxError (msg : string) : Error := mkError "SyntaxError" msg.

(** [JSON.parse] restricted to the texts above, [{}] and [null]. *)
Definition parse_fixture (text : string) : Res JSValue :=
  if String.eqb text verdict_text then Ok verdict
  else if String.eqb text fusion_text then Ok fusion
  else if String.eqb text sloppy_text then Ok sloppy
  else if String.eqb text careless_text then Ok careless
  else if String.eqb text "{}" then Ok (JObj [])
  else if String.eqb text "null" then Ok JNull
  else Throw (SyntaxError "Unexpected token in JSON").

Definition completion_of (text : string) : OpenAI.ChatCompletion :=
  {| OpenAI.choices := [{| OpenAI.message := {| OpenAI.content := Some text |} |}] |}.

Definition message_of (text : string) : Anthropic.Message :=
  {| Anthropic.content := [{| Anthropic.type := "text"; Anthropic.text := Some text |}] |}.

Definition network_error : Error := mkError "Error" "Connection error.".

(** A world in which nothing was sent yet and every request gets the same
    answer. *)
Definition world (o : Res OpenAI.ChatCompletion) (a : Res Anthropic.Message) : World :=
  {| openai_reply := λ _, o; anthropic_reply := λ _, a; sent := []; console := [] |}.

Definition file (path content : string) : GitHubFile.t :=
  {| GitHubFile.path := path; GitHubFile.content := content;
     GitHubFile.type := "text"; GitHubFile.sha := "" |}.

Definition with_openai : AIMergerService := new_AIMergerService "openai" "sk-test".
Definition with_anthropic : AIMergerService := new_AIMergerService "anthropic" "sk-ant-test".

(** The provider is down. *)
Definition world_down : World := world (Throw network_error) (Throw network_error).
(** The provider answers every request with the text. *)
Definition world_saying (text : string) : World :=
  world (Ok (completion_of text)) (Ok (message_of text)).

Definition greet_A : GitHubFile.t := file "greet.txt" "hello".
Definition greet_B : GitHubFile.t := file "greet.txt" "hullo".

Definition side_A1 : list GitHubFile.t := [file "a.txt" "A"; greet_A].
Definition side_B1 : list GitHubFile.t := [file "b.txt" "B"; greet_B].

(** The merged files of [side_A1] and [side_B1] when the fusion succeeds. *)
Definition merged_1 : list MergedFile.t :=
  [ {| MergedFile.path := "a.txt"; MergedFile.content := JStr "A"; MergedFile.type := "text";
       MergedFile.changes := JArr [Change "added" 1 "A" "workspace_a"] |};
    {| MergedFile.path := "b.txt"; MergedFile.content := JStr "B"; MergedFile.type := "text";
       MergedFile.changes := JArr [Change "added" 1 "B" "workspace_b"] |};
    {| MergedFile.path := "greet.txt"; MergedFile.content := JStr "hello, world";
       MergedFile.type := "text";
       MergedFile.changes := JArr [Change "added" 1 "world" "workspace_b";
                                   Change "modified" 1 "hello" "ai_generated"] |} ].

Definition pending_job (id : string) : MergeJob.t :=
  {| MergeJob.id := id;
     MergeJob.workspaceAUrl := "https://github.com/octocat/Hello-World";
     MergeJob.workspaceBUrl := "https://github.com/octocat/Spoon-Knife";
     MergeJob.workspaceABranch := Some "main";
     MergeJob.workspaceBBranch := Some "main";
     MergeJob.status := Some "pending";
     MergeJob.aiProvider := "openai";
     MergeJob.mergedFiles := None;
     MergeJob.conflicts := None;
     MergeJob.summary := None;
     MergeJob.errorMessage := None;
     MergeJob.createdAt := Some 0;
     MergeJob.completedAt := None |}.

(** The body of a new job as the client sends it: without a status. *)
Definition insert_1 : InsertMergeJob.t :=
  {| InsertMergeJob.workspaceAUrl := "https://github.com/octocat/Hello-World";
     InsertMergeJob.workspaceBUrl := "https://github.com/octocat/Spoon-Knife";
     InsertMergeJob.workspaceABranch := Some "main";
     InsertMergeJob.workspaceBBranch := Some "main";
     InsertMergeJob.status := None;
     InsertMergeJob.aiProvider := "openai";
     InsertMergeJob.mergedFiles := None;
     InsertMergeJob.conflicts := None;
     InsertMergeJob.summary := None;
     InsertMergeJob.errorMessage := None |}.

Definition merge_body : MergeBody :=
  {| githubTokenA := None; githubTokenB := None; aiApiKey := "sk-test" |}.

(** A server that holds the one pending job [job-1]. *)
Definition server_1 : Server :=
  {| storage := {| MemStorage.mergeJobs := {[ "job-1" := pending_job "job-1" ]};
                   MemStorage.workspaceFiles := [] |};
     immediates := [] |}.


(** ** Properties of the File Set Classifier *)

Lemma elem_of_paths (p : string) (fs : list GitHubFile.t) :
  p ∈ paths fs ↔ ∃ f, f ∈ fs ∧ GitHubFile.path f = p.
Proof. unfold paths. rewrite list_elem_of_fmap. naive_solver. Qed.

Lemma elem_of_path_set (p : string) (fs : list GitHubFile.t) :
  p ∈ path_set fs ↔ p ∈ paths fs.
Proof. apply elem_of_list_to_set. Qed.

Lemma NoDup_paths_filter (P : GitHubFile.t → Prop) `{!∀ f, Decision (P f)}
    (fs : list GitHubFile.t) :
  NoDup (paths fs) → NoDup (paths (filter P fs)).
Proof.
  unfold paths. induction fs as [|f fs IH]; [done|].
  rewrite fmap_cons, NoDup_cons. intros [Hf Hfs].
  rewrite filter_cons. destruct (decide (P f)); [|auto].
  rewrite fmap_cons, NoDup_cons. split; [|auto].
  rewrite list_elem_of_fmap in Hf |- *. intros (g & Hg & Hin).
  apply list_elem_of_filter in Hin. naive_solver.
Qed.

(** C3. For collections whose paths are unique within each side,
    [analyzeFileStructures] sorts the files three ways by their path: a
    file of side A is in [uniqueToA] when its path is not on side B and in
    [commonFiles] when it is, whatever the two contents are, and a file of
    side B is in [uniqueToB] when its path is not on side A; the
    partitions hold nothing else. So the three partitions cover exactly
    the paths of the two sides and no path is in two of them (nor twice in
    one). *)
Theorem analyzeFileStructures_partition (sideA sideB : list GitHubFile.t) :
  NoDup (paths sideA) → NoDup (paths sideB) →
  let r := analyzeFileStructures sideA sideB in
  (∀ f, f ∈ uniqueToA r ↔ f ∈ sideA ∧ GitHubFile.path f ∉ paths sideB)
  ∧ (∀ f, f ∈ uniqueToB r ↔ f ∈ sideB ∧ GitHubFile.path f ∉ paths sideA)
  ∧ (∀ f, f ∈ commonFiles r ↔ f ∈ sideA ∧ GitHubFile.path f ∈ paths sideB)
  ∧ (∀ p, p ∈ path_set (uniqueToA r) ↔ p ∈ paths sideA ∧ p ∉ paths sideB)
  ∧ (∀ p, p ∈ path_set (uniqueToB r) ↔ p ∈ paths sideB ∧ p ∉ paths sideA)
  ∧ (∀ p, p ∈ path_set (commonFiles r) ↔ p ∈ paths sideA ∧ p ∈ paths sideB)
  ∧ path_set (uniqueToA r) ∪ path_set (uniqueToB r) ∪ path_set (commonFiles r)
    = path_set sideA ∪ path_set sideB
  ∧ path_set (uniqueToA r) ## path_set (uniqueToB r)
  ∧ path_set (uniqueToA r) ## path_set (commonFiles r)
  ∧ path_set (uniqueToB r) ## path_set (commonFiles r)
  ∧ NoDup (paths (uniqueToA r) ++ paths (uniqueToB r) ++ paths (commonFiles r))
  ∧ (∀ fileA fileB, fileA ∈ sideA → fileB ∈ sideB →
       GitHubFile.path fileA = GitHubFile.path fileB →
       fileA ∈ commonFiles r ∧ (fileA ∉ uniqueToA r) ∧ (fileB ∉ uniqueToB r)).
Proof.
  intros HA HB r.
  assert (HfA : ∀ f, f ∈ uniqueToA r ↔ f ∈ sideA ∧ GitHubFile.path f ∉ paths sideB).
  { intros f. subst r; simpl. rewrite list_elem_of_filter, elem_of_list_to_set.
    unfold paths. naive_solver. }
  assert (HfB : ∀ f, f ∈ uniqueToB r ↔ f ∈ sideB ∧ GitHubFile.path f ∉ paths sideA).
  { intros f. subst r; simpl. rewrite list_elem_of_filter, elem_of_list_to_set.
    unfold paths. naive_solver. }
  assert (Hfc : ∀ f, f ∈ commonFiles r ↔ f ∈ sideA ∧ GitHubFile.path f ∈ paths sideB).
  { intros f. subst r; simpl. rewrite list_elem_of_filter, elem_of_list_to_set.
    unfold paths. naive_solver. }
  assert (HuA : ∀ p, p ∈ path_set (uniqueToA r) ↔ p ∈ paths sideA ∧ p ∉ paths sideB).
  { intros p. rewrite elem_of_path_set, elem_of_paths. split.
    - intros (f & Hf & <-). apply HfA in Hf as [Hf Hn]. split; [|done].
      apply elem_of_paths. eauto.
    - intros [(f & Hf & <-)%elem_of_paths Hn]. exists f. split; [|done]. by apply HfA. }
  assert (HuB : ∀ p, p ∈ path_set (uniqueToB r) ↔ p ∈ paths sideB ∧ p ∉ paths sideA).
  { intros p. rewrite elem_of_path_set, elem_of_paths. split.
    - intros (f & Hf & <-). apply HfB in Hf as [Hf Hn]. split; [|done].
      apply elem_of_paths. eauto.
    - intros [(f & Hf & <-)%elem_of_paths Hn]. exists f. split; [|done]. by apply HfB. }
  assert (Hc : ∀ p, p ∈ path_set (commonFiles r) ↔ p ∈ paths sideA ∧ p ∈ paths sideB).
  { intros p. rewrite elem_of_path_set, elem_of_paths. split.
    - intros (f & Hf & <-). apply Hfc in Hf as [Hf Hn]. split; [|done].
      apply elem_of_paths. eauto.
    - intros [(f & Hf & <-)%elem_of_paths Hn]. exists f. split; [|done]. by apply Hfc. }
  split_and!; [done..| | | | | |].
  - apply set_eq. intros p. rewrite !elem_of_union, HuA, HuB, Hc, !elem_of_path_set.
    destruct (decide (p ∈ paths sideA)), (decide (p ∈ paths sideB)); naive_solver.
  - intros p. rewrite HuA, HuB. naive_solver.
  - intros p. rewrite HuA, Hc. naive_solver.
  - intros p. rewrite HuB, Hc. naive_solver.
  - rewrite !NoDup_app. split_and!.
    + by apply NoDup_paths_filter.
    + intros p Hp. rewrite elem_of_app, <-!elem_of_path_set.
      apply elem_of_path_set in Hp. revert Hp. rewrite HuA, HuB, Hc. naive_solver.
    + by apply NoDup_paths_filter.
    + intros p. rewrite <-!elem_of_path_set, HuB, Hc. naive_solver.
    + by apply NoDup_paths_filter.
  - intros fileA fileB HinA HinB Hpath.
    assert (GitHubFile.path fileA ∈ paths sideB).
    { rewrite Hpath. apply elem_of_paths. eauto. }
    assert (GitHubFile.path fileB ∈ paths sideA).
    { rewrite <-Hpath. apply elem_of_paths. eauto. }
    rewrite HfA, HfB, Hfc. naive_solver.
Qed.

(** ** Properties of the Summary Builder *)

Lemma size_list_to_set_remove_dups (l : list string) :
  size (list_to_set l : gset string) = length (remove_dups l).
Proof.
  rewrite <-(size_list_to_set (C:=gset string) (remove_dups l))
    by apply NoDup_remove_dups.
  f_equal. apply set_eq. intros p.
  by rewrite !elem_of_list_to_set, elem_of_remove_dups.
Qed.

(** What [c.type === "added"] gives on each value that has properties. *)
Lemma is_added_value (c : JSValue) :
  c ≠ JNull → c ≠ JUndefined → is_added c = Ok (kind_added c).
Proof. by destruct c. Qed.

Lemma js_filter_is_added (cs : list JSValue) :
  (Forall (λ c, c ≠ JNull ∧ c ≠ JUndefined) cs
   ∧ js_filter is_added cs = Ok (filter (λ c, kind_added c = true) cs))
  ∨ (¬ Forall (λ c, c ≠ JNull ∧ c ≠ JUndefined) cs
     ∧ ∃ msg, js_filter is_added cs = Throw (TypeError msg)).
Proof.
  induction cs as [|c cs IH].
  { left. by split. }
  assert (c = JNull ∨ c = JUndefined ∨ (c ≠ JNull ∧ c ≠ JUndefined))
    as [->|[->|[Hnull Hundef]]] by (destruct c; naive_solver).
  { right. split; [|by eexists]. rewrite Forall_cons. naive_solver. }
  { right. split; [|by eexists]. rewrite Forall_cons. naive_solver. }
  cbn [js_filter]. rewrite (is_added_value c Hnull Hundef).
  destruct IH as [[Hall ->]|(Hnot & msg & ->)].
  - left. split; [by constructor|]. rewrite filter_cons.
    destruct (kind_added c); by case_decide.
  - right. split; [|by exists msg]. rewrite Forall_cons. naive_solver.
Qed.

Lemma reduce_linesAdded (mergedFiles : list MergedFile.t) (total : nat) :
  (Forall countable_changes mergedFiles
   ∧ reduce mergedFiles
       (λ total file,
          added ← method_filter (MergedFile.changes file) is_added;
          mret (total + length added)) total
     = Ok (total + added_changes mergedFiles))
  ∨ (¬ Forall countable_changes mergedFiles
     ∧ ∃ msg, reduce mergedFiles
                (λ total file,
                   added ← method_filter (MergedFile.changes file) is_added;
                   mret (total + length added)) total
              = Throw (TypeError msg)).
Proof.
  revert total. induction mergedFiles as [|file files IH]; intros total.
  { left. split; [done|]. cbn. f_equal. unfold added_changes. cbn. lia. }
  cbn [reduce].
  destruct (MergedFile.changes file) as [| | | | |cs|] eqn:Hch;
    try (right; split; [|by eexists];
         rewrite Forall_cons; intros [(cs & Hcs & _) _]; congruence).
  cbn [method_filter].
  destruct (js_filter_is_added cs) as [[Hall ->]|(Hnot & msg & ->)].
  - cbn [mbind res_bind mret res_ret].
    destruct (IH (total + length (filter (λ c, kind_added c = true) cs)))
      as [[Hfiles ->]|(Hnot & msg & ->)].
    + left. split.
      { constructor; [by exists cs|done]. }
      f_equal. unfold added_changes. rewrite bind_cons, filter_app, length_app.
      replace (changes_of file) with cs by (unfold changes_of; by rewrite Hch). lia.
    + right. split; [|by exists msg]. rewrite Forall_cons. naive_solver.
  - right. split; [|by exists msg]. rewrite Forall_cons.
    intros [(cs' & Hcs' & Hall) _]. congruence.
Qed.

Lemma declared_countable (file : MergedFile.t) :
  declared_changes file → countable_changes file.
Proof.
  intros (cs & Hcs & Hobj). exists cs. split; [done|].
  eapply Forall_impl; [exact Hobj|]. by intros c [kvs ->].
Qed.

(** C6, amended. When the change list of every merged file is an array
    without [null] and [undefined] entries, as it is on inputs of the
    declared types, [generateSummary] returns the number of distinct paths
    over both sides, the length of [mergedFiles], the length of
    [conflicts], the count of change entries whose kind is [added] over
    all merged files, and the same four recommendations. On every other
    input it throws a [TypeError] and returns nothing. *)
Theorem generateSummary_counts (sideA sideB : list GitHubFile.t)
    (mergedFiles : list MergedFile.t) (conflicts : list Conflict.t) :
  (Forall countable_changes mergedFiles →
     generateSummary sideA sideB mergedFiles conflicts
     = Ok (summary_as_claimed sideA sideB mergedFiles conflicts))
  ∧ (¬ Forall countable_changes mergedFiles →
       ∃ msg, generateSummary sideA sideB mergedFiles conflicts = Throw (TypeError msg))
  ∧ (Forall declared_changes mergedFiles → Forall countable_changes mergedFiles).
Proof.
  unfold generateSummary, summary_as_claimed.
  destruct (reduce_linesAdded mergedFiles 0) as [[Hall ->]|(Hnot & msg & ->)]; cbn.
  - split_and!.
    + intros _. by rewrite size_list_to_set_remove_dups.
    + done.
    + intros _. done.
  - split_and!.
    + done.
    + intros _. by exists msg.
    + intros Hdecl. eapply Forall_impl; [exact Hdecl|]. apply declared_countable.
Qed.

(** ** Properties of the Conflict Analyzer and of the Content Fuser *)

Section MergerProperties.

Variable JSON_parse : string → Res JSValue.


(** Unfolding of the monad on a known first step. *)
Lemma bind_ok {A B} (m : M A) (k : A → M B) (w w' : World) (a : A) :
  m w = (Ok a, w') → (m ≫= k) w = k a w'.
Proof. unfold mbind, M_bind. by intros ->. Qed.

Lemma bind_throw {A B} (m : M A) (k : A → M B) (w w' : World) (e : Error) :
  m w = (Throw e, w') → (m ≫= k) w = (Throw e, w').
Proof. unfold mbind, M_bind. by intros ->. Qed.

Lemma try_catch_ok {A} (body : M A) (handler : Error → M A) (w w' : World) (a : A) :
  body w = (Ok a, w') → try_catch body handler w = (Ok a, w').
Proof. unfold try_catch. by intros ->. Qed.

Lemma try_catch_throw {A} (body : M A) (handler : Error → M A) (w w' : World) (e : Error) :
  body w = (Throw e, w') → try_catch body handler w = handler e w'.
Proof. unfold try_catch. by intros ->. Qed.

(** What [ask] does in each of the outcomes of the reasoning step. *)
Lemma ask_fails (this : AIMergerService) (prompt : string) (max_tokens : nat)
    (w : World) (e : Error) :
  reasoning_fails JSON_parse this w e →
  ∃ req, request_of this prompt max_tokens = Some req
         ∧ ask JSON_parse this prompt max_tokens w = (Throw e, send req w).
Proof.
  unfold ask, request_of.
  destruct 1 as [c e Ho Hr|c cm e Ho Hr Hc|c cm ct e Ho Hr Hc Hp
                 |c e Ho Ha Hr|c m e Ho Ha Hr Hp]; rewrite Ho; try rewrite Ha;
    eexists; (split; [reflexivity|]);
    unfold mbind, M_bind, openai_chat_completions_create, anthropic_messages_create, lift;
    rewrite Hr; try rewrite Hc; try rewrite Hp; reflexivity.
Qed.

Lemma ask_yields (this : AIMergerService) (prompt : string) (max_tokens : nat)
    (w : World) (response : JSValue) :
  reasoning_yields JSON_parse this w response →
  ∃ req, request_of this prompt max_tokens = Some req
         ∧ ask JSON_parse this prompt max_tokens w = (Ok response, send req w).
Proof.
  unfold ask, request_of.
  destruct 1 as [c cm ct r Ho Hr Hc Hp|c m r Ho Ha Hr Hp]; rewrite Ho; try rewrite Ha;
    eexists; (split; [reflexivity|]);
    unfold mbind, M_bind, openai_chat_completions_create, anthropic_messages_create, lift;
    rewrite Hr; try rewrite Hc; try rewrite Hp; reflexivity.
Qed.

(** [ask] sends at most one request, the one of [request_of], and leaves
    the console and the replies to come alone. *)
Lemma ask_world (this : AIMergerService) (prompt : string) (max_tokens : nat) (w : World) :
  (ask JSON_parse this prompt max_tokens w).2 =
    match request_of this prompt max_tokens with
    | Some req => send req w
    | None => w
    end.
Proof.
  unfold ask, request_of.
  destruct (openai this) as [c|], (anthropic this) as [c'|]; try reflexivity;
    unfold mbind, M_bind, openai_chat_completions_create, anthropic_messages_create, lift;
    repeat (case_match; simplify_eq/=; try reflexivity).
Qed.

Lemma sent_request_of (this : AIMergerService) (prompt : string) (max_tokens : nat) (w : World) :
  let w' := match request_of this prompt max_tokens with
            | Some req => send req w
            | None => w
            end in
  openai_reply w' = openai_reply w ∧ anthropic_reply w' = anthropic_reply w
  ∧ console w' = console w
  ∧ (sent w' = sent w
     ∨ ∃ req, request_of this prompt max_tokens = Some req ∧ sent w' = sent w ++ [req]).
Proof. destruct (request_of this prompt max_tokens); naive_solver. Qed.

(** [mergeFileContents] never throws; the merged file has the path and the
    type of side A; at most one request is sent, and only when the contents
    differ. *)
Lemma mergeFileContents_returns (this : AIMergerService) (fileA fileB : GitHubFile.t)
    (w : World) :
  ∃ mf w', mergeFileContents JSON_parse this fileA fileB w = (Ok mf, w')
    ∧ MergedFile.path mf = GitHubFile.path fileA
    ∧ MergedFile.type mf = GitHubFile.type fileA
    ∧ openai_reply w' = openai_reply w ∧ anthropic_reply w' = anthropic_reply w
    ∧ (sent w' = sent w
       ∨ GitHubFile.content fileA ≠ GitHubFile.content fileB
         ∧ ∃ req, request_of this (mergePrompt fileA fileB) 4000 = Some req
                  ∧ sent w' = sent w ++ [req]).
Proof.
  unfold mergeFileContents.
  destruct (String.eqb_spec (GitHubFile.content fileA) (GitHubFile.content fileB)) as [Heq|Hne].
  { eexists _, w. split; [reflexivity|]. naive_solver. }
  pose proof (ask_world this (mergePrompt fileA fileB) 4000 w) as Hw.
  pose proof (sent_request_of this (mergePrompt fileA fileB) 4000 w) as (Ho & Ha & _ & Hs).
  cbv zeta in Ho, Ha, Hs. rewrite <-Hw in Ho, Ha, Hs. clear Hw.
  destruct (ask JSON_parse this (mergePrompt fileA fileB) 4000 w) as [[r|e] w1] eqn:Hask;
    cbn [snd] in *.
  - destruct (getProp r "mergedContent") as [mc|e] eqn:Hmc.
    + assert (∃ ch, getProp r "changes" = Ok ch) as [ch Hch].
      { destruct r; simplify_eq/=; eauto. }
      eexists _, w1. split.
      { apply try_catch_ok. erewrite bind_ok by exact Hask.
        unfold lift, mbind, M_bind. rewrite Hmc, Hch. reflexivity. }
      naive_solver.
    + eexists _, (log _ e w1). split.
      { erewrite try_catch_throw.
        2:{ erewrite bind_ok by exact Hask. unfold lift, mbind, M_bind.
            rewrite Hmc. reflexivity. }
        reflexivity. }
      naive_solver.
  - eexists _, (log _ e w1). split.
    { erewrite try_catch_throw by (by apply bind_throw). reflexivity. }
    naive_solver.
Qed.

(** C10. Whatever the provider answers, the merged file of a common pair has
    the path and the type of side A's file. *)
Theorem mergeFileContents_path_type (this : AIMergerService) (fileA fileB : GitHubFile.t)
    (w : World) :
  ∃ mf w', mergeFileContents JSON_parse this fileA fileB w = (Ok mf, w')
    ∧ MergedFile.path mf = GitHubFile.path fileA
    ∧ MergedFile.type mf = GitHubFile.type fileA.
Proof.
  destruct (mergeFileContents_returns this fileA fileB w) as (mf & w' & H & Hp & Ht & _).
  eauto.
Qed.

(** C1. When the contents differ and the provider call or the parsing of its
    reply throws (the promise rejects, the reply has no choice, its text is
    no JSON, or it parses to [null]), [mergeFileContents] returns side A's
    path, content and type with an empty change list, and prints the error. *)
Theorem mergeFileContents_fallback (this : AIMergerService) (fileA fileB : GitHubFile.t)
    (w : World) (e : Error) :
  GitHubFile.content fileA ≠ GitHubFile.content fileB →
  reasoning_fails JSON_parse this w e
  ∨ (∃ r, reasoning_yields JSON_parse this w r ∧ getProp r "mergedContent" = Throw e) →
  ∃ req mf,
    request_of this (mergePrompt fileA fileB) 4000 = Some req
    ∧ mergeFileContents JSON_parse this fileA fileB w =
        (Ok mf, log "Error merging file contents:" e (send req w))
    ∧ mf = {| MergedFile.path := GitHubFile.path fileA;
              MergedFile.content := JStr (GitHubFile.content fileA);
              MergedFile.type := GitHubFile.type fileA;
              MergedFile.changes := JArr [] |}
    ∧ MergedFile.content mf ≠ JStr (GitHubFile.content fileB).
Proof.
  intros Hne Hfail. unfold mergeFileContents.
  destruct (String.eqb_spec (GitHubFile.content fileA) (GitHubFile.content fileB)); [done|].
  destruct Hfail as [Hfail|(r & Hr & Hget)].
  - destruct (ask_fails this (mergePrompt fileA fileB) 4000 w e Hfail) as (req & Hreq & Hask).
    eexists req, _. split_and!; [done| |reflexivity|cbn; congruence].
    erewrite try_catch_throw by (by apply bind_throw). reflexivity.
  - destruct (ask_yields this (mergePrompt fileA fileB) 4000 w r Hr) as (req & Hreq & Hask).
    eexists req, _. split_and!; [done| |reflexivity|cbn; congruence].
    erewrite try_catch_throw.
    2:{ erewrite bind_ok by exact Hask. unfold lift, mbind, M_bind.
        rewrite Hget. reflexivity. }
    reflexivity.
Qed.

(** C9. When the call succeeds and the reply parses, but the response has no
    [mergedContent] or an empty one, the merged content is side A's; when
    it has no [changes], the change list is empty. *)
Theorem mergeFileContents_incomplete_response (this : AIMergerService)
    (fileA fileB : GitHubFile.t) (w : World) (r : JSValue) :
  GitHubFile.content fileA ≠ GitHubFile.content fileB →
  reasoning_yields JSON_parse this w r →
  ∃ mf w', mergeFileContents JSON_parse this fileA fileB w = (Ok mf, w')
    ∧ (getProp r "mergedContent" = Ok JUndefined ∨ getProp r "mergedContent" = Ok (JStr "") →
       MergedFile.content mf = JStr (GitHubFile.content fileA))
    ∧ (getProp r "changes" = Ok JUndefined → MergedFile.changes mf = JArr []).
Proof.
  intros Hne Hr. unfold mergeFileContents.
  destruct (String.eqb_spec (GitHubFile.content fileA) (GitHubFile.content fileB)); [done|].
  destruct (ask_yields this (mergePrompt fileA fileB) 4000 w r Hr) as (req & Hreq & Hask).
  destruct (getProp r "mergedContent") as [mc|e] eqn:Hmc.
  - assert (∃ ch, getProp r "changes" = Ok ch) as [ch Hch].
    { destruct r; simplify_eq/=; eauto. }
    eexists _, _. split.
    { apply try_catch_ok. erewrite bind_ok by exact Hask.
      unfold lift, mbind, M_bind. rewrite Hmc, Hch. reflexivity. }
    cbn. split.
    + by intros [[= ->]|[= ->]].
    + rewrite Hch. by intros [= ->].
  - eexists _, _. split.
    { erewrite try_catch_throw.
      2:{ erewrite bind_ok by exact Hask. unfold lift, mbind, M_bind.
          rewrite Hmc. reflexivity. }
      reflexivity. }
    done.
Qed.

(** C5. For a common pair with identical contents, the loop of
    [detectConflicts] adds no conflict and [mergeFileContents] returns the
    shared content with an empty change list; both leave the world as it
    is, so no request is sent. *)
Theorem identical_content_no_call (this : AIMergerService) (workspaceB : list GitHubFile.t)
    (fileA fileB : GitHubFile.t) (conflicts : list Conflict.t) (w : World) :
  find_by_path workspaceB fileA = Some fileB →
  GitHubFile.content fileA = GitHubFile.content fileB →
  detectConflicts_body JSON_parse this workspaceB fileA conflicts w = (Ok conflicts, w)
  ∧ mergeFileContents JSON_parse this fileA fileB w =
      (Ok {| MergedFile.path := GitHubFile.path fileA;
             MergedFile.content := JStr (GitHubFile.content fileB);
             MergedFile.type := GitHubFile.type fileA;
             MergedFile.changes := JArr [] |}, w).
Proof.
  intros Hfind Heq. unfold detectConflicts_body, mergeFileContents.
  rewrite Hfind, Heq, String.eqb_refl. done.
Qed.

(** What [analyzeFileConflict] returns, by the outcome of the reasoning
    step: it never throws. *)
Lemma analyzeFileConflict_returns (this : AIMergerService) (fileA fileB : GitHubFile.t)
    (w : World) :
  ∃ c w', analyzeFileConflict JSON_parse this fileA fileB w = (Ok c, w')
    ∧ openai_reply w' = openai_reply w ∧ anthropic_reply w' = anthropic_reply w
    ∧ (sent w' = sent w
       ∨ ∃ req, request_of this (conflictPrompt fileA fileB) 1024 = Some req
                ∧ sent w' = sent w ++ [req])
    ∧ (∀ conflict, c = Some conflict →
         ∃ r hasConflict,
           (ask JSON_parse this (conflictPrompt fileA fileB) 1024 w).1 = Ok r
           ∧ getProp r "hasConflict" = Ok hasConflict ∧ truthy hasConflict = true
           ∧ Ok conflict =
               (type ← getProp r "type";
                description ← getProp r "description";
                recommendation ← getProp r "recommendation";
                mret {|
                  Conflict.filePath := GitHubFile.path fileA;
                  Conflict.type := type;
                  Conflict.description := description;
                  Conflict.recommendation := recommendation;
                  Conflict.options := [
                    {| ConflictOption.id := "use_a";
                       ConflictOption.description := "Use Version A";
                       ConflictOption.preview :=
                         JStr (js_substring (GitHubFile.content fileA) 0 200 +:+ "...") |};
                    {| ConflictOption.id := "use_b";
                       ConflictOption.description := "Use Version B";
                       ConflictOption.preview :=
                         JStr (js_substring (GitHubFile.content fileB) 0 200 +:+ "...") |};
                    {| ConflictOption.id := "ai_merge";
                       ConflictOption.description := "AI Recommended Merge";
                       ConflictOption.preview := recommendation |}
                  ] |})).
Proof.
  unfold analyzeFileConflict.
  pose proof (ask_world this (conflictPrompt fileA fileB) 1024 w) as Hw.
  pose proof (sent_request_of this (conflictPrompt fileA fileB) 1024 w) as (Ho & Ha & _ & Hs).
  cbv zeta in Ho, Ha, Hs. rewrite <-Hw in Ho, Ha, Hs. clear Hw.
  destruct (ask JSON_parse this (conflictPrompt fileA fileB) 1024 w) as [[r|e] w1] eqn:Hask;
    cbn [fst snd] in *.
  - destruct (getProp r "hasConflict") as [hc|e] eqn:Hhc.
    + destruct (truthy hc) eqn:Htruthy.
      * assert (∃ kvs, r = JObj kvs) as [kvs ->].
        { destruct r; simplify_eq/=; eauto. }
        eexists _, w1. split.
        { apply try_catch_ok. erewrite bind_ok by exact Hask.
          unfold lift, mbind, M_bind. rewrite Hhc, Htruthy. reflexivity. }
        split_and!; [done..|]. intros conflict [= <-].
        eexists _, hc. split_and!; done.
      * eexists _, w1. split.
        { apply try_catch_ok. erewrite bind_ok by exact Hask.
          unfold lift, mbind, M_bind. rewrite Hhc, Htruthy. reflexivity. }
        split_and!; done.
    + eexists _, (log _ e w1). split.
      { erewrite try_catch_throw.
        2:{ erewrite bind_ok by exact Hask. unfold lift, mbind, M_bind.
            rewrite Hhc. reflexivity. }
        reflexivity. }
      split_and!; done.
  - eexists _, (log _ e w1). split.
    { erewrite try_catch_throw by (by apply bind_throw). reflexivity. }
    split_and!; done.
Qed.

(** With a failing reasoning step, or a response in which no truthy
    [hasConflict] is read, [analyzeFileConflict] returns [null] after its
    one request. *)
Lemma analyzeFileConflict_quiet (this : AIMergerService) (fileA fileB : GitHubFile.t)
    (w : World) :
  (∃ e, reasoning_fails JSON_parse this w e)
  ∨ (∃ r, reasoning_yields JSON_parse this w r
          ∧ ∀ hasConflict, getProp r "hasConflict" = Ok hasConflict
                           → truthy hasConflict = false) →
  ∃ req w',
    request_of this (conflictPrompt fileA fileB) 1024 = Some req
    ∧ sent w' = sent w ++ [req]
    ∧ analyzeFileConflict JSON_parse this fileA fileB w = (Ok None, w').
Proof.
  intros Hcase. unfold analyzeFileConflict.
  destruct Hcase as [[e Hfail]|(r & Hr & Hfalsy)].
  - destruct (ask_fails this (conflictPrompt fileA fileB) 1024 w e Hfail)
      as (req & Hreq & Hask).
    eexists req, _. split_and!; [done| |].
    2:{ erewrite try_catch_throw by (by apply bind_throw). reflexivity. }
    done.
  - destruct (ask_yields this (conflictPrompt fileA fileB) 1024 w r Hr)
      as (req & Hreq & Hask).
    destruct (getProp r "hasConflict") as [hasConflict|e] eqn:Hhc.
    + eexists req, _. split_and!; [done| |].
      2:{ apply try_catch_ok. erewrite bind_ok by exact Hask.
          unfold lift, mbind, M_bind. rewrite Hhc, (Hfalsy _ eq_refl). reflexivity. }
      done.
    + eexists req, _. split_and!; [done| |].
      2:{ erewrite try_catch_throw.
          2:{ erewrite bind_ok by exact Hask. unfold lift, mbind, M_bind.
              rewrite Hhc. reflexivity. }
          reflexivity. }
      done.
Qed.

(** With a response whose [hasConflict] is truthy, [analyzeFileConflict]
    returns a conflict made of whatever the response holds. *)
Lemma analyzeFileConflict_reports (this : AIMergerService) (fileA fileB : GitHubFile.t)
    (w : World) (r hasConflict : JSValue) :
  reasoning_yields JSON_parse this w r →
  getProp r "hasConflict" = Ok hasConflict → truthy hasConflict = true →
  ∃ conflict w',
    analyzeFileConflict JSON_parse this fileA fileB w = (Ok (Some conflict), w')
    ∧ Conflict.filePath conflict = GitHubFile.path fileA
    ∧ getProp r "type" = Ok (Conflict.type conflict)
    ∧ getProp r "description" = Ok (Conflict.description conflict)
    ∧ getProp r "recommendation" = Ok (Conflict.recommendation conflict).
Proof.
  intros Hr Hhc Htruthy. unfold analyzeFileConflict.
  destruct (ask_yields this (conflictPrompt fileA fileB) 1024 w r Hr)
    as (req & _ & Hask).
  assert (∃ kvs, r = JObj kvs) as [kvs ->].
  { destruct r; simplify_eq/=; eauto. }
  eexists _, _. split.
  { apply try_catch_ok. erewrite bind_ok by exact Hask.
    unfold lift, mbind, M_bind. rewrite Hhc, Htruthy. reflexivity. }
  done.
Qed.

(** C4, amended. For a common pair with differing contents,
    [analyzeFileConflict] never throws, and the loop of [detectConflicts]
    goes on, with the conflict added when there is one. When the provider
    call fails, the reply has no choice to read, its text does not parse,
    or no truthy [hasConflict] can be read from the response (a [null]
    response, a response without [hasConflict] or with a falsy one), no
    conflict is emitted, after the one request. A response with a truthy
    [hasConflict] yields a conflict, with whatever it holds as [type],
    [description] and [recommendation], also when it is malformed. *)
Theorem analyzeFileConflict_fail_open (this : AIMergerService)
    (workspaceB : list GitHubFile.t) (fileA fileB : GitHubFile.t)
    (conflicts : list Conflict.t) (w : World) :
  find_by_path workspaceB fileA = Some fileB →
  GitHubFile.content fileA ≠ GitHubFile.content fileB →
  ∃ c w',
    analyzeFileConflict JSON_parse this fileA fileB w = (Ok c, w')
    ∧ detectConflicts_body JSON_parse this workspaceB fileA conflicts w
      = (Ok (match c with Some conflict => conflicts ++ [conflict] | None => conflicts end),
         w')
    ∧ ((∃ e, reasoning_fails JSON_parse this w e)
       ∨ (∃ r, reasoning_yields JSON_parse this w r
               ∧ ∀ hasConflict, getProp r "hasConflict" = Ok hasConflict
                                → truthy hasConflict = false) →
       c = None
       ∧ ∃ req, request_of this (conflictPrompt fileA fileB) 1024 = Some req
                ∧ sent w' = sent w ++ [req])
    ∧ (∀ r hasConflict,
         reasoning_yields JSON_parse this w r →
         getProp r "hasConflict" = Ok hasConflict → truthy hasConflict = true →
         ∃ conflict,
           c = Some conflict
           ∧ Conflict.filePath conflict = GitHubFile.path fileA
           ∧ getProp r "type" = Ok (Conflict.type conflict)
           ∧ getProp r "description" = Ok (Conflict.description conflict)
           ∧ getProp r "recommendation" = Ok (Conflict.recommendation conflict)).
Proof.
  intros Hfind Hne.
  destruct (analyzeFileConflict_returns this fileA fileB w) as (c & w' & Hres & _).
  exists c, w'. split_and!.
  - done.
  - unfold detectConflicts_body. rewrite Hfind.
    destruct (String.eqb_spec (GitHubFile.content fileA) (GitHubFile.content fileB));
      [done|].
    cbn [negb]. erewrite bind_ok by exact Hres. by destruct c.
  - intros Hcase.
    destruct (analyzeFileConflict_quiet this fileA fileB w Hcase)
      as (req & w1 & Hreq & Hsent & Hquiet).
    rewrite Hres in Hquiet. injection Hquiet as -> ->. eauto.
  - intros r hasConflict Hr Hhc Htruthy.
    destruct (analyzeFileConflict_reports this fileA fileB w r hasConflict Hr Hhc Htruthy)
      as (conflict & w1 & Hreports & Hfields).
    rewrite Hres in Hreports. injection Hreports as -> ->. eauto.
Qed.

Lemma substring_0_prefix (n : nat) (s : string) :
  String.prefix (String.substring 0 n s) s = true
  ∧ String.length (String.substring 0 n s) = n `min` String.length s.
Proof.
  revert s. induction n as [|n IH]; intros [|a s]; cbn; try done.
  destruct (IH s) as [Hp Hl]. rewrite Hp, Hl.
  by destruct (Ascii.ascii_dec a a).
Qed.

Lemma js_substring_0 (s : string) (n : nat) :
  js_substring s 0 n = String.substring 0 (n `min` String.length s) s.
Proof. unfold js_substring. cbn [Nat.min Nat.max]. by rewrite Nat.sub_0_r. Qed.

Lemma preview_prefix (content : string) :
  String.prefix (js_substring content 0 200) content = true
  ∧ String.length (js_substring content 0 200) = 200 `min` String.length content.
Proof.
  rewrite js_substring_0.
  destruct (substring_0_prefix (200 `min` String.length content) content) as [Hp Hl].
  split; [done|]. rewrite Hl. lia.
Qed.

Lemma length_append (s t : string) :
  String.length (s +:+ t) = String.length s + String.length t.
Proof.
  induction s as [|a s IH]; [done|].
  change (S (String.length (s +:+ t)) = S (String.length s + String.length t)).
  by rewrite IH.
Qed.

(** C7, amended. Every conflict that [analyzeFileConflict] produces has
    exactly the three options [use_a], [use_b], [ai_merge] in this order;
    the preview of the first two is the first 200 characters of the
    content of that side (all of it when it is shorter) followed by three
    dots, hence of at most 203 characters, and the preview of the third is
    the recommendation of the conflict. *)
Theorem analyzeFileConflict_options (this : AIMergerService) (fileA fileB : GitHubFile.t)
    (w w' : World) (c : Conflict.t) :
  analyzeFileConflict JSON_parse this fileA fileB w = (Ok (Some c), w') →
  ∃ headA headB,
    Conflict.options c =
      [ {| ConflictOption.id := "use_a";
           ConflictOption.description := "Use Version A";
           ConflictOption.preview := JStr (headA +:+ "...") |};
        {| ConflictOption.id := "use_b";
           ConflictOption.description := "Use Version B";
           ConflictOption.preview := JStr (headB +:+ "...") |};
        {| ConflictOption.id := "ai_merge";
           ConflictOption.description := "AI Recommended Merge";
           ConflictOption.preview := Conflict.recommendation c |} ]
    ∧ String.prefix headA (GitHubFile.content fileA) = true
    ∧ String.length headA = 200 `min` String.length (GitHubFile.content fileA)
    ∧ String.prefix headB (GitHubFile.content fileB) = true
    ∧ String.length headB = 200 `min` String.length (GitHubFile.content fileB)
    ∧ (String.length (headA +:+ "...") ≤ 203)%nat
    ∧ (String.length (headB +:+ "...") ≤ 203)%nat.
Proof.
  intros Hres.
  destruct (analyzeFileConflict_returns this fileA fileB w)
    as (c' & w'' & Hres' & _ & _ & _ & Hsome).
  rewrite Hres in Hres'. injection Hres' as <- <-.
  destruct (Hsome c eq_refl) as (r & hc & _ & Hhc & Htruthy & Hc).
  assert (∃ kvs, r = JObj kvs) as [kvs ->].
  { destruct r; simplify_eq/=; eauto. }
  cbn in Hc. injection Hc as ->. cbn.
  destruct (preview_prefix (GitHubFile.content fileA)) as [HpA HlA].
  destruct (preview_prefix (GitHubFile.content fileB)) as [HpB HlB].
  eexists _, _. split; [reflexivity|].
  rewrite !length_append, HlA, HlB. cbn [String.length].
  split_and!; try done; lia.
Qed.

(** The loops never throw. *)
Lemma detectConflicts_body_returns (this : AIMergerService) (workspaceB : list GitHubFile.t)
    (fileA : GitHubFile.t) (conflicts : list Conflict.t) (w : World) :
  ∃ conflicts' w',
    detectConflicts_body JSON_parse this workspaceB fileA conflicts w = (Ok conflicts', w').
Proof.
  unfold detectConflicts_body.
  destruct (find_by_path workspaceB fileA) as [fileB|]; [|by eexists _, _].
  destruct (negb _); [|by eexists _, _].
  destruct (analyzeFileConflict_returns this fileA fileB w) as (c & w' & Hres & _).
  erewrite bind_ok by exact Hres. destruct c; by eexists _, _.
Qed.

Lemma for_of_returns {A S} (body : A → S → M S) (xs : list A) :
  (∀ x acc w, ∃ acc' w', body x acc w = (Ok acc', w')) →
  ∀ acc w, ∃ acc' w', for_of xs body acc w = (Ok acc', w').
Proof.
  intros Hbody. induction xs as [|x xs IH]; intros acc w; cbn [for_of].
  - by eexists _, _.
  - destruct (Hbody x acc w) as (acc1 & w1 & H1).
    erewrite bind_ok by exact H1. apply IH.
Qed.

Lemma detectConflicts_returns (this : AIMergerService) (sideA sideB : list GitHubFile.t)
    (w : World) :
  ∃ conflicts w', detectConflicts JSON_parse this sideA sideB w = (Ok conflicts, w').
Proof.
  unfold detectConflicts. apply for_of_returns.
  intros. apply detectConflicts_body_returns.
Qed.






End MergerProperties.

(** ** Properties of the Job Lifecycle Controller *)

Section LifecycleProperties.

Variable JSON_parse : string → Res JSValue.













End LifecycleProperties.

(** ** The properties at concrete inputs *)

Lemma mergeFileContents_fallback_witness :
  GitHubFile.content greet_A ≠ GitHubFile.content greet_B
  ∧ reasoning_fails parse_fixture with_openai world_down network_error
  ∧ ∃ req mf,
      request_of with_openai (mergePrompt greet_A greet_B) 4000 = Some req
      ∧ mergeFileContents parse_fixture with_openai greet_A greet_B world_down =
          (Ok mf, log "Error merging file contents:" network_error (send req world_down))
      ∧ mf = {| MergedFile.path := "greet.txt"; MergedFile.content := JStr "hello";
                MergedFile.type := "text"; MergedFile.changes := JArr [] |}
      ∧ MergedFile.content mf ≠ JStr "hullo".
Proof.
  assert (H1 : GitHubFile.content greet_A ≠ GitHubFile.content greet_B) by (by vm_compute).
  assert (H2 : reasoning_fails parse_fixture with_openai world_down network_error).
  { eapply openai_rejects; reflexivity. }
  split_and!; [exact H1|exact H2|].
  exact (mergeFileContents_fallback parse_fixture with_openai greet_A greet_B world_down
           network_error H1 (or_introl H2)).
Defined.


Lemma analyzeFileStructures_partition_witness :
  NoDup (paths side_A1) ∧ NoDup (paths side_B1)
  ∧ let r := analyzeFileStructures side_A1 side_B1 in
    (∀ f, f ∈ uniqueToA r ↔ f ∈ side_A1 ∧ GitHubFile.path f ∉ paths side_B1)
    ∧ (∀ f, f ∈ uniqueToB r ↔ f ∈ side_B1 ∧ GitHubFile.path f ∉ paths side_A1)
    ∧ (∀ f, f ∈ commonFiles r ↔ f ∈ side_A1 ∧ GitHubFile.path f ∈ paths side_B1)
    ∧ (∀ p, p ∈ path_set (uniqueToA r) ↔ p ∈ paths side_A1 ∧ p ∉ paths side_B1)
    ∧ (∀ p, p ∈ path_set (uniqueToB r) ↔ p ∈ paths side_B1 ∧ p ∉ paths side_A1)
    ∧ (∀ p, p ∈ path_set (commonFiles r) ↔ p ∈ paths side_A1 ∧ p ∈ paths side_B1)
    ∧ path_set (uniqueToA r) ∪ path_set (uniqueToB r) ∪ path_set (commonFiles r)
      = path_set side_A1 ∪ path_set side_B1
    ∧ path_set (uniqueToA r) ## path_set (uniqueToB r)
    ∧ path_set (uniqueToA r) ## path_set (commonFiles r)
    ∧ path_set (uniqueToB r) ## path_set (commonFiles r)
    ∧ NoDup (paths (uniqueToA r) ++ paths (uniqueToB r) ++ paths (commonFiles r))
    ∧ (∀ fileA fileB, fileA ∈ side_A1 → fileB ∈ side_B1 →
         GitHubFile.path fileA = GitHubFile.path fileB →
         fileA ∈ commonFiles r ∧ (fileA ∉ uniqueToA r) ∧ (fileB ∉ uniqueToB r)).
Proof.
  assert (HA : NoDup (paths side_A1)) by (apply (bool_decide_unpack _); by vm_compute).
  assert (HB : NoDup (paths side_B1)) by (apply (bool_decide_unpack _); by vm_compute).
  split_and!; [exact HA|exact HB|].
  exact (analyzeFileStructures_partition side_A1 side_B1 HA HB).
Defined.

Lemma analyzeFileConflict_fail_open_witness :
  find_by_path side_B1 greet_A = Some greet_B
  ∧ GitHubFile.content greet_A ≠ GitHubFile.content greet_B
  ∧ reasoning_fails parse_fixture with_anthropic (world_saying "I cannot tell.")
      (SyntaxError "Unexpected token in JSON")
  ∧ ∃ req w',
      request_of with_anthropic (conflictPrompt greet_A greet_B) 1024 = Some req
      ∧ sent w' = sent (world_saying "I cannot tell.") ++ [req]
      ∧ analyzeFileConflict parse_fixture with_anthropic greet_A greet_B
          (world_saying "I cannot tell.") = (Ok None, w')
      ∧ detectConflicts_body parse_fixture with_anthropic side_B1 greet_A []
          (world_saying "I cannot tell.") = (Ok [], w').
Proof.
  assert (H1 : find_by_path side_B1 greet_A = Some greet_B) by reflexivity.
  assert (H2 : GitHubFile.content greet_A ≠ GitHubFile.content greet_B) by (by vm_compute).
  assert (H3 : reasoning_fails parse_fixture with_anthropic (world_saying "I cannot tell.")
                 (SyntaxError "Unexpected token in JSON")).
  { eapply anthropic_unparsable; reflexivity. }
  split_and!; [exact H1|exact H2|exact H3|].
  destruct (analyzeFileConflict_fail_open parse_fixture with_anthropic side_B1 greet_A
              greet_B [] (world_saying "I cannot tell.") H1 H2)
    as (c & w' & Hres & Hbody & Hquiet & _).
  destruct (Hquiet (or_introl (ex_intro _ _ H3))) as (-> & req & Hreq & Hsent).
  by exists req, w'.
Defined.

(** C4, as the specification words it, fails: the provider answers with
    [hasConflict] set to the string [yes] and nothing else, which is not
    the format asked for. [analyzeFileConflict] emits a conflict whose
    type, description and recommendation are [undefined]. *)
Lemma analyzeFileConflict_malformed_counterexample :
  ∃ r c w',
    GitHubFile.content greet_A ≠ GitHubFile.content greet_B
    ∧ reasoning_yields parse_fixture with_openai (world_saying sloppy_text) r
    ∧ malformed r
    ∧ analyzeFileConflict parse_fixture with_openai greet_A greet_B
        (world_saying sloppy_text) = (Ok (Some c), w')
    ∧ detectConflicts parse_fixture with_openai [greet_A] [greet_B]
        (world_saying sloppy_text) = (Ok [c], w')
    ∧ Conflict.filePath c = "greet.txt"
    ∧ Conflict.type c = JUndefined
    ∧ Conflict.description c = JUndefined
    ∧ Conflict.recommendation c = JUndefined.
Proof.
  exists sloppy. eexists _, _. split_and!.
  - by vm_compute.
  - eapply openai_yields; reflexivity.
  - intros (kvs & b & type & description & recommendation & [= <-] & Hb & _). done.
  - vm_compute. reflexivity.
  - vm_compute. reflexivity.
  - reflexivity.
  - reflexivity.
  - reflexivity.
  - reflexivity.
Qed.

Lemma identical_content_no_call_witness :
  find_by_path [greet_A] greet_A = Some greet_A
  ∧ detectConflicts_body parse_fixture with_openai [greet_A] greet_A [] world_down
      = (Ok [], world_down)
  ∧ mergeFileContents parse_fixture with_openai greet_A greet_A world_down =
      (Ok {| MergedFile.path := "greet.txt"; MergedFile.content := JStr "hello";
             MergedFile.type := "text"; MergedFile.changes := JArr [] |}, world_down).
Proof.
  assert (H1 : find_by_path [greet_A] greet_A = Some greet_A) by reflexivity.
  split; [exact H1|].
  exact (identical_content_no_call parse_fixture with_openai [greet_A] greet_A greet_A []
           world_down H1 eq_refl).
Defined.

Lemma generateSummary_counts_witness :
  Forall countable_changes merged_1
  ∧ generateSummary side_A1 side_B1 merged_1 [] =
      Ok {| MergeSummary.totalFiles := 3;
            MergeSummary.mergedFiles := 3;
            MergeSummary.conflictsResolved := 0;
            MergeSummary.linesAdded := 3;
            MergeSummary.recommendations :=
              ["Review merged files for proper functionality";
               "Test the integrated codebase thoroughly";
               "Update documentation to reflect changes";
               "Consider refactoring common patterns"] |}.
Proof.
  assert (H : Forall countable_changes merged_1).
  { repeat constructor; (eexists; split; [reflexivity|]); repeat constructor; done. }
  split; [exact H|].
  exact (proj1 (generateSummary_counts side_A1 side_B1 merged_1 []) H).
Defined.

(** C6, as the specification words it, fails: the provider answers the
    fusion of [greet.txt] with a [changes] that is a sentence and no
    array. [mergeFileContents] passes it on unchecked, [generateSummary]
    throws on it, and the whole merge fails. *)
Lemma generateSummary_throws_counterexample :
  ∃ mergedFiles w',
    performAIMerge parse_fixture with_openai [greet_A] [greet_B] []
      (world_saying careless_text) = (Ok mergedFiles, w')
    ∧ mergedFiles
      = [ {| MergedFile.path := "greet.txt"; MergedFile.content := JStr "hello, world";
             MergedFile.type := "text";
             MergedFile.changes := JStr "merged both greetings" |} ]
    ∧ generateSummary [greet_A] [greet_B] mergedFiles []
      = Throw (TypeError "file.changes.filter is not a function")
    ∧ generateSummary [greet_A] [greet_B] mergedFiles []
      ≠ Ok (summary_as_claimed [greet_A] [greet_B] mergedFiles [])
    ∧ (mergeWorkspaces parse_fixture with_openai [greet_A] [greet_B]
         (world_saying careless_text)).1
      = Throw (mkError "Error" "AI merge failed: file.changes.filter is not a function").
Proof.
  eexists _, _. split; [vm_compute; reflexivity|].
  split; [reflexivity|]. split; [reflexivity|]. split; [discriminate|].
  vm_compute. reflexivity.
Qed.

(** C7, as the specification words it, fails: with contents [hello] and
    [hullo] and a provider that reports a conflict, the previews of the
    first two options are [hello...] and [hullo...], which are no part of
    the five characters of the content. *)
Lemma analyzeFileConflict_preview_counterexample :
  ∃ c w',
    analyzeFileConflict parse_fixture with_openai greet_A greet_B (world_saying verdict_text)
      = (Ok (Some c), w')
    ∧ ConflictOption.preview <$> Conflict.options c
        = [JStr "hello..."; JStr "hullo..."; JStr "keep both greetings"]
    ∧ ¬ options_as_claimed greet_A greet_B c.
Proof.
  eexists _, _. split; [vm_compute; reflexivity|]. split; [reflexivity|].
  intros (a & b & m & Hopts & _ & _ & _ & Hprev & _).
  injection Hopts as <- _ _.
  destruct Hprev as [(s & i & Hs & _ & Hsub)|Hrec]; [|discriminate Hrec].
  injection Hs as <-.
  do 6 (destruct i as [|i]; [by vm_compute in Hsub|]). by vm_compute in Hsub.
Qed.

Lemma analyzeFileConflict_options_witness :
  ∃ c w',
    analyzeFileConflict parse_fixture with_openai greet_A greet_B (world_saying verdict_text)
      = (Ok (Some c), w')
    ∧ ∃ headA headB,
        Conflict.options c =
          [ {| ConflictOption.id := "use_a";
               ConflictOption.description := "Use Version A";
               ConflictOption.preview := JStr (headA +:+ "...") |};
            {| ConflictOption.id := "use_b";
               ConflictOption.description := "Use Version B";
               ConflictOption.preview := JStr (headB +:+ "...") |};
            {| ConflictOption.id := "ai_merge";
               ConflictOption.description := "AI Recommended Merge";
               ConflictOption.preview := Conflict.recommendation c |} ]
        ∧ String.prefix headA (GitHubFile.content greet_A) = true
        ∧ String.length headA = 200 `min` String.length (GitHubFile.content greet_A)
        ∧ String.prefix headB (GitHubFile.content greet_B) = true
        ∧ String.length headB = 200 `min` String.length (GitHubFile.content greet_B)
        ∧ (String.length (headA +:+ "...") ≤ 203)%nat
        ∧ (String.length (headB +:+ "...") ≤ 203)%nat.
Proof.
  eexists _, _.
  refine (let H := _ in
          conj H (analyzeFileConflict_options parse_fixture with_openai greet_A greet_B
                    (world_saying verdict_text) _ _ H)).
  vm_compute. reflexivity.
Defined.

Lemma mergeFileContents_incomplete_response_witness :
  GitHubFile.content greet_A ≠ GitHubFile.content greet_B
  ∧ reasoning_yields parse_fixture with_openai (world_saying "{}") (JObj [])
  ∧ ∃ mf w',
      mergeFileContents parse_fixture with_openai greet_A greet_B (world_saying "{}")
        = (Ok mf, w')
      ∧ (getProp (JObj []) "mergedContent" = Ok JUndefined
         ∨ getProp (JObj []) "mergedContent" = Ok (JStr "") →
         MergedFile.content mf = JStr (GitHubFile.content greet_A))
      ∧ (getProp (JObj []) "changes" = Ok JUndefined → MergedFile.changes mf = JArr []).
Proof.
  assert (H1 : GitHubFile.content greet_A ≠ GitHubFile.content greet_B) by (by vm_compute).
  assert (H2 : reasoning_yields parse_fixture with_openai (world_saying "{}") (JObj [])).
  { eapply openai_yields; reflexivity. }
  split_and!; [exact H1|exact H2|].
  exact (mergeFileContents_incomplete_response parse_fixture with_openai greet_A greet_B
           (world_saying "{}") (JObj []) H1 H2).
Defined.

(** ** The scenarios of the specification, evaluated *)

(** Both sides hold [x.txt] with the same content: no conflict, one merged
    file without changes, and no request even though the provider is down. *)
Example scenario_identical_file :
  mergeWorkspaces parse_fixture with_openai [file "x.txt" "hello"] [file "x.txt" "hello"]
    world_down
  = (Ok {| MergeResult.mergedFiles :=
             [ {| MergedFile.path := "x.txt"; MergedFile.content := JStr "hello";
                  MergedFile.type := "text"; MergedFile.changes := JArr [] |} ];
           MergeResult.conflicts := [];
           MergeResult.summary :=
             {| MergeSummary.totalFiles := 1;
                MergeSummary.mergedFiles := 1;
                MergeSummary.conflictsResolved := 0;
                MergeSummary.linesAdded := 0;
                MergeSummary.recommendations := recommendations |} |},
     world_down).
Proof. vm_compute. reflexivity. Qed.

(** The sides share no path: two merged files, each with one [added]
    change tagged with its side. *)
Example scenario_disjoint_files :
  mergeWorkspaces parse_fixture with_anthropic [file "a.txt" "A"] [file "b.txt" "B"]
    world_down
  = (Ok {| MergeResult.mergedFiles :=
             [ {| MergedFile.path := "a.txt"; MergedFile.content := JStr "A";
                  MergedFile.type := "text";
                  MergedFile.changes := JArr [Change "added" 1 "A" "workspace_a"] |};
               {| MergedFile.path := "b.txt"; MergedFile.content := JStr "B";
                  MergedFile.type := "text";
                  MergedFile.changes := JArr [Change "added" 1 "B" "workspace_b"] |} ];
           MergeResult.conflicts := [];
           MergeResult.summary :=
             {| MergeSummary.totalFiles := 2;
                MergeSummary.mergedFiles := 2;
                MergeSummary.conflictsResolved := 0;
                MergeSummary.linesAdded := 2;
                MergeSummary.recommendations := recommendations |} |},
     world_down).
Proof. vm_compute. reflexivity. Qed.

(** A fusion that succeeds: content and changes are the provider's, path
    and type are side A's. *)
Example scenario_fusion :
  (mergeFileContents parse_fixture with_anthropic greet_A greet_B (world_saying fusion_text)).1
  = Ok {| MergedFile.path := "greet.txt"; MergedFile.content := JStr "hello, world";
          MergedFile.type := "text";
          MergedFile.changes := JArr [Change "added" 1 "world" "workspace_b"] |}.
Proof. vm_compute. reflexivity. Qed.

(** A job in status [failed] receives a merge request: rejected, and the
    server is as before. *)
Example scenario_failed_job :
  let s := {| storage := (MemStorage.updateMergeJob "job-1" (failed network_error) 5
                            (storage server_1)).2;
              immediates := [] |} in
  MergeJob.status <$> MemStorage.getMergeJob "job-1" (storage s) = Some (Some "failed")
  ∧ MergeJob.completedAt <$> MemStorage.getMergeJob "job-1" (storage s) = Some (Some 5)
  ∧ post_merge "job-1" merge_body 6 s
    = ({| code := 400; json_message := "Merge job is not in pending status" |}, s).
Proof. vm_compute. done. Qed.

(** A job created from a body without status has none, and its merge
    request is rejected. *)
Example scenario_created_job :
  let s := {| storage := (MemStorage.createMergeJob "job-2" 7 insert_1 MemStorage.new).2;
              immediates := [] |} in
  MergeJob.status <$> MemStorage.getMergeJob "job-2" (storage s) = Some None
  ∧ post_merge "job-2" merge_body 8 s
    = ({| code := 400; json_message := "Merge job is not in pending status" |}, s).
Proof. vm_compute. done. Qed.

(** The provider answers the fusion with a change list that is no array:
    the callback of the merge route marks the job as failed. *)
Example scenario_careless_reply :
  let this := process_merge parse_fixture (pending_job "job-1") merge_body
                (Ok ([greet_A], [greet_B])) (world_saying careless_text) 9
                (λ k, if Nat.eqb k 0 then "file-a" else "file-b") (storage server_1) in
  (MergeJob.status <$> MemStorage.getMergeJob "job-1" this,
   MergeJob.errorMessage <$> MemStorage.getMergeJob "job-1" this,
   WorkspaceFile.id <$> MemStorage.getWorkspaceFilesByJobId "job-1" this)
  = (Some (Some "failed"),
     Some (Some "AI merge failed: file.changes.filter is not a function"),
     ["file-a"; "file-b"]).
Proof. vm_compute. reflexivity. Qed.
